(** * pgmodel: SQL template synthesis and value marshaling

    A shallow embedding of package [pgmodel] (file [pgmodel.go]): the
    [PGModel] interface, the three statement builders [createGetQuery],
    [createSaveQuery], [createDeleteQuery], the value marshaler
    [convertVariable] / [convertVariables], and the four entry points [Get],
    [GetMany], [Save], [Delete].

    Go strings are [string], Go's [int] is [Z] with its 64-bit wrap-around
    written out, [interface{}] values are [value]s (nil, or a dynamic type
    with its data), a run-time panic is the [Panic] branch of [outcome], and
    the go-pg transaction is a record of its two query methods. *)

From Stdlib Require Import String Ascii List ZArith Lia Bool.
Import ListNotations.

Local Open Scope string_scope.
Local Open Scope list_scope.

Set Warnings "-register-all".

(** ** Run-time panics *)

Inductive panic : Type :=
| NilPointerDereference
    (* runtime error: invalid memory address or nil pointer dereference *)
| IndexOutOfRange (i : Z) (len : nat)
    (* runtime error: index out of range [i] with length len *)
| InterfaceConversion (dynamic : string)
    (* interface conversion: <dynamic> is not pgmodel.PGModel *)
| ReflectPanic (what : string).

Inductive outcome (A : Type) : Type :=
| Ok (a : A)
| Panic (p : panic).

Arguments Ok {A} a.
Arguments Panic {A} p.

Definition bind {A B : Type} (m : outcome A) (k : A -> outcome B) : outcome B :=
  match m with
  | Ok a => k a
  | Panic p => Panic p
  end.

Notation "x <- m ;; k" := (bind m (fun x => k))
  (at level 61, m at next level, right associativity).

Definition returns {A : Type} (m : outcome A) : Prop := exists a, m = Ok a.
Definition panics {A : Type} (m : outcome A) : Prop := exists p, m = Panic p.

(** ** Go's [int] *)

Definition int_wrap (z : Z) : Z := (z + 2 ^ 63) mod 2 ^ 64 - 2 ^ 63.
Definition int_sub (x y : Z) : Z := int_wrap (x - y).

(** ** package reflect, as far as the package uses it *)

Module reflect.

Inductive Kind : Type :=
| Invalid | Bool | Int | Int8 | Int16 | Int32 | Int64
| Uint | Uint8 | Uint16 | Uint32 | Uint64 | Uintptr
| Float32 | Float64 | Complex64 | Complex128
| Array | Chan | Func | Interface | Map | Pointer | Slice | String | Struct
| UnsafePointer.

End reflect.

Definition Kind : Type := reflect.Kind.

(** Go types.  [Predeclared k] is the predeclared type of kind [k] ([bool],
    [int], [float64], [string], ...); [Defined n u] is a type declared as
    [type n u], the only types (with pointers to them) that carry methods. *)
Inductive rtype : Type :=
| Predeclared (k : Kind)
| SliceOf (elem : rtype)
| ArrayOf (len : nat) (elem : rtype)
| PointerTo (elem : rtype)
| MapOf (key elem : rtype)
| StructLit
| Defined (name : string) (underlying : rtype)
| InterfacePGModel
| InterfaceEmpty.

(** [reflect.Type.Kind] *)
Fixpoint Kind_of (t : rtype) : Kind :=
  match t with
  | Predeclared k => k
  | SliceOf _ => reflect.Slice
  | ArrayOf _ _ => reflect.Array
  | PointerTo _ => reflect.Pointer
  | MapOf _ _ => reflect.Map
  | StructLit => reflect.Struct
  | Defined _ u => Kind_of u
  | InterfacePGModel => reflect.Interface
  | InterfaceEmpty => reflect.Interface
  end.

(** [reflect.Type.String], as far as the panic messages need it. *)
Fixpoint type_string (t : rtype) : string :=
  match t with
  | Predeclared reflect.Bool => "bool"
  | Predeclared reflect.Int => "int"
  | Predeclared reflect.Int64 => "int64"
  | Predeclared reflect.Float64 => "float64"
  | Predeclared reflect.String => "string"
  | Predeclared _ => "basic"
  | SliceOf e => "[]" ++ type_string e
  | ArrayOf _ e => "[...]" ++ type_string e
  | PointerTo e => "*" ++ type_string e
  | MapOf k e => "map[" ++ type_string k ++ "]" ++ type_string e
  | StructLit => "struct {...}"
  | Defined n _ => n
  | InterfacePGModel => "pgmodel.PGModel"
  | InterfaceEmpty => "interface {}"
  end.

(** ** The [PGModel] interface

    The eight methods of the interface, in its order.  The record is the
    method table of a non-nil interface value; [V] is [interface{}]. *)
Record PGModelOf (V : Type) : Type := {
  PrimaryKey : string;
  PrimaryKeyValue : V;
  SchemaName : string;
  TableName : string;
  ColumnCount : Z;
  NonPKColumns : list string;
  NonPKValues : list V;
  ConvertSlice : string -> string
}.

Arguments PrimaryKey {V} _.
Arguments PrimaryKeyValue {V} _.
Arguments SchemaName {V} _.
Arguments TableName {V} _.
Arguments ColumnCount {V} _.
Arguments NonPKColumns {V} _.
Arguments NonPKValues {V} _.
Arguments ConvertSlice {V} _ _.

(** ** [interface{}] values

    An interface value is nil or pairs a dynamic type with data.  The package
    never reads the data: it only inspects the dynamic type. *)
Inductive value : Type :=
| nil_interface
| dyn (t : rtype) (d : data)
with data : Type :=
| Bits (z : Z)                    (* booleans and numbers *)
| Text (s : string)               (* strings *)
| Elems (l : list data)           (* slices and arrays; the nil slice is [Elems []] *)
| Ref (target : option data)      (* pointers; the nil pointer is [Ref None] *)
| Held (v : value)                (* a variable of interface type *)
| Model (m : PGModelOf value).    (* a value whose type implements PGModel *)

Definition PGModel : Type := PGModelOf value.

(** A Go [string] converted to [interface{}]. *)
Definition string_value (s : string) : value := dyn (Predeclared reflect.String) (Text s).

(** A [[]PGModel] converted to [interface{}]. *)
Definition models_value (pm : list PGModel) : value :=
  dyn (SliceOf InterfacePGModel) (Elems (map Model pm)).

(** [reflect.TypeOf]: the dynamic type, or the nil [Type] for nil. *)
Definition reflect_TypeOf (v : value) : option rtype :=
  match v with
  | nil_interface => None
  | dyn t _ => Some t
  end.

(** [rt.Kind()] on a [reflect.Type] interface value: a method call on the nil
    interface dereferences nil. *)
Definition Type_Kind (rt : option rtype) : outcome Kind :=
  match rt with
  | None => Panic NilPointerDereference
  | Some t => Ok (Kind_of t)
  end.

(** The zero value of a type. *)
Fixpoint zero (t : rtype) : data :=
  match t with
  | Predeclared reflect.String => Text ""
  | Predeclared _ => Bits 0
  | SliceOf _ => Elems []
  | ArrayOf n e => Elems (repeat (zero e) n)
  | PointerTo _ => Ref None
  | MapOf _ _ => Elems []
  | StructLit => Elems []
  | Defined _ u => zero u
  | InterfacePGModel => Held nil_interface
  | InterfaceEmpty => Held nil_interface
  end.

(** [reflect.Value] *)
Record Value : Type := { typ : rtype; ptr : data }.

(** [reflect.New]: a pointer to a new zero value of the type. *)
Definition reflect_New (rt : option rtype) : outcome Value :=
  match rt with
  | None => Panic (ReflectPanic "reflect: New(nil)")
  | Some t => Ok {| typ := PointerTo t; ptr := Ref (Some (zero t)) |}
  end.

(** [Value.Elem]: the value a pointer points to. *)
Definition Value_Elem (v : Value) : outcome Value :=
  match typ v, ptr v with
  | PointerTo e, Ref (Some d) => Ok {| typ := e; ptr := d |}
  | _, _ => Panic (ReflectPanic "reflect: call of reflect.Value.Elem")
  end.

(** [Value.Interface]: the value as an [interface{}]. *)
Definition Value_Interface (v : Value) : value :=
  match Kind_of (typ v), ptr v with
  | reflect.Interface, Held x => x
  | _, d => dyn (typ v) d
  end.

(** Only defined types and pointers to them have a method set. *)
Definition method_table (t : rtype) (d : data) : option PGModel :=
  match t, d with
  | Defined _ _, Model m => Some m
  | PointerTo (Defined _ _), Model m => Some m
  | _, _ => None
  end.

(** The type assertion [x.(PGModel)] in its one-result form. *)
Definition assert_PGModel (x : value) : outcome PGModel :=
  match x with
  | nil_interface => Panic (InterfaceConversion "interface is nil")
  | dyn t d =>
      match method_table t d with
      | Some m => Ok m
      | None => Panic (InterfaceConversion (type_string t))
      end
  end.

(** ** packages fmt and strings *)

(** [fmt.Sprintf] for formats whose only verb is [%s], with string operands;
    every call of the package passes as many operands as its format has
    verbs. *)
Fixpoint Sprintf (format : string) (args : list string) : string :=
  match format with
  | EmptyString => EmptyString
  | String "%" (String "s" rest) =>
      match args with
      | a :: args' => a ++ Sprintf rest args'
      | [] => "%!s(MISSING)" ++ Sprintf rest []
      end
  | String c rest => String c (Sprintf rest args)
  end%string.

(** [strings.Join] *)
Fixpoint Join (elems : list string) (sep : string) : string :=
  match elems with
  | [] => ""
  | a :: rest =>
      match rest with
      | [] => a
      | _ :: _ => a ++ sep ++ Join rest sep
      end
  end%string.

(** The line break and two tabs between the lines of the raw string
    literals. *)
Definition LF : string := String "010" EmptyString.
Definition TAB : string := String "009" EmptyString.
Definition NL : string := (LF ++ TAB ++ TAB)%string.

(** ** The go-pg transaction

    [R] stands for the pair [(orm.Result, error)] a query returns. *)
Inductive target : Type :=
| OneModel (pm : PGModel)          (* pm *)
| ManyModels (pm : list PGModel).  (* &pm *)

Record Tx (R : Type) : Type := {
  QueryOne : target -> string -> list value -> R;
  Query : target -> string -> list value -> R
}.

Arguments QueryOne {R} _ _ _ _.
Arguments Query {R} _ _ _ _.

(** ** Non-exported functions *)

Definition get_format : string :=
  ("SELECT * FROM %s.%s" ++ NL ++ "WHERE %s = ?")%string.

Definition createGetQuery (pm : PGModel) (queryKey : string) (queryValue : value)
  : string :=
  let sn := SchemaName pm in
  let tn := TableName pm in
  Sprintf get_format [sn; tn; queryKey].

(** The loop [for i := 0; i < cc-1; i++] of [createSaveQuery].  [rest] is
    [npkc[i:]], so that [npkc[i]] is its head and indexing panics when it is
    empty; [len] is [len(npkc)]. *)
Fixpoint save_loop (rest : list string) (len : nat) (bound i : Z)
    (im sm : list string) : outcome (list string * list string) :=
  if (i <? bound)%Z then
    match rest with
    | [] => Panic (IndexOutOfRange i len)
    | c :: rest' =>
        save_loop rest' len bound (i + 1)%Z
          (im ++ ["?"]) (sm ++ [Sprintf "%s = ?" [c]])
    end
  else Ok (im, sm).

Definition save_format : string :=
  ("INSERT INTO %s.%s (%s) " ++ NL ++
   "VALUES (%s) " ++ NL ++
   "ON CONFLICT (%s) " ++ NL ++
   "DO UPDATE" ++ NL ++
   "SET %s " ++ NL ++
   "WHERE %s.%s = ?")%string.

Definition createSaveQuery (pm : PGModel) : outcome string :=
  let pk := PrimaryKey pm in
  let sn := SchemaName pm in
  let tn := TableName pm in
  let cc := ColumnCount pm in
  let npkc := NonPKColumns pm in
  let c := [pk] ++ npkc in
  lists <- save_loop npkc (length npkc) (int_sub cc 1) 0 ([] ++ ["?"]) [] ;;
  let '(im, sm) := lists in
  Ok (Sprintf save_format
        [sn; tn; Join c ", "; Join im ", "; pk; Join sm ", "; tn; pk]).

Definition delete_format : string :=
  ("DELETE FROM %s.%s" ++ NL ++ "WHERE %s.%s = ?")%string.

Definition createDeleteQuery (pm : PGModel) : string :=
  let pk := PrimaryKey pm in
  let sn := SchemaName pm in
  let tn := TableName pm in
  Sprintf delete_format [sn; tn; tn; pk].

Definition convertVariable (pm : PGModel) (v : value) (c : string)
  : outcome value :=
  let rt := reflect_TypeOf v in
  k <- Type_Kind rt ;;
  match k with
  | reflect.Slice => Ok (string_value (ConvertSlice pm c))
  | _ => Ok v
  end.

(** Indexing a slice: [l[i]]. *)
Definition elem_at {A : Type} (l : list A) (i : nat) : outcome A :=
  match nth_error l i with
  | Some a => Ok a
  | None => Panic (IndexOutOfRange (Z.of_nat i) (length l))
  end.

(** The loop [for i, u := range pm.NonPKValues()] of [convertVariables],
    from index [i] on, with [cv] built so far. *)
Fixpoint convertVariables_from (pm : PGModel) (i : nat) (us cv : list value)
  : outcome (list value) :=
  match us with
  | [] => Ok cv
  | u :: us' =>
      c <- elem_at (NonPKColumns pm) i ;;
      x <- convertVariable pm u c ;;
      convertVariables_from pm (S i) us' (cv ++ [x])
  end.

Definition convertVariables (pm : PGModel) : outcome (list value) :=
  convertVariables_from pm 0 (NonPKValues pm) [].

(** ** Exported functions *)

Definition Get {R : Type} (pm : PGModel) (t : Tx R) (queryKey : string)
    (queryValue : value) : outcome R :=
  Ok (QueryOne t (OneModel pm) (createGetQuery pm queryKey queryValue)
        [queryValue]).

Definition GetMany {R : Type} (pm : list PGModel) (t : Tx R)
    (queryKey : string) (queryValue : value) : outcome R :=
  p <- reflect_New (reflect_TypeOf (models_value pm)) ;;
  e <- Value_Elem p ;;
  m <- assert_PGModel (Value_Interface e) ;;
  Ok (Query t (ManyModels pm) (createGetQuery m queryKey queryValue)
        [queryValue]).

Definition Save {R : Type} (pm : PGModel) (t : Tx R) : outcome R :=
  pkv <- convertVariable pm (PrimaryKeyValue pm) (PrimaryKey pm) ;;
  npkv <- convertVariables pm ;;
  let v := [pkv] ++ npkv in
  let tv := v ++ npkv in
  let tv := tv ++ [pkv] in
  q <- createSaveQuery pm ;;
  Ok (Query t (OneModel pm) q tv).

Definition Delete {R : Type} (pm : PGModel) (t : Tx R) : outcome R :=
  Ok (Query t (OneModel pm) (createDeleteQuery pm) [PrimaryKeyValue pm]).

(** ** The earlier revision of the package

    A second copy of the package predates [ConvertSlice]: its [Save] passes the
    values unconverted and its templates qualify the final predicate with the
    schema name.  Only its delete template is needed here. *)
Module Earlier.

Definition delete_format : string :=
  ("DELETE FROM %s.%s" ++ NL ++ "WHERE %s.%s = ?")%string.

Definition createDeleteQuery (pm : PGModel) : string :=
  let pk := PrimaryKey pm in
  let sn := SchemaName pm in
  let tn := TableName pm in
  Sprintf delete_format [sn; tn; sn; pk].

(** The upsert template of the earlier revision: the same format and the
    same loop, the last predicate qualified with [sn]. *)
Definition createSaveQuery (pm : PGModel) : outcome string :=
  let pk := PrimaryKey pm in
  let sn := SchemaName pm in
  let tn := TableName pm in
  let cc := ColumnCount pm in
  let npkc := NonPKColumns pm in
  let c := [pk] ++ npkc in
  lists <- save_loop npkc (length npkc) (int_sub cc 1) 0 ([] ++ ["?"]) [] ;;
  let '(im, sm) := lists in
  Ok (Sprintf save_format
        [sn; tn; Join c ", "; Join im ", "; pk; Join sm ", "; sn; pk]).

(** [Save] of the earlier revision: no value is converted. *)
Definition Save {R : Type} (pm : PGModel) (t : Tx R) : outcome R :=
  let pkv := PrimaryKeyValue pm in
  let npkv := NonPKValues pm in
  let v := [pkv] ++ npkv in
  let tv := v ++ npkv in
  let tv := tv ++ [pkv] in
  q <- createSaveQuery pm ;;
  Ok (Query t (OneModel pm) q tv).

Definition Delete {R : Type} (pm : PGModel) (t : Tx R) : outcome R :=
  Ok (Query t (OneModel pm) (createDeleteQuery pm) [PrimaryKeyValue pm]).

End Earlier.

(** ** Vocabulary of the specification *)

(** [ColumnCount] returns a Go [int]. *)
Definition int_range (z : Z) : Prop := (- 2 ^ 63 <= z < 2 ^ 63)%Z.

(** The number of [?] characters of a text. *)
Fixpoint qmarks (s : string) : nat :=
  match s with
  | EmptyString => 0
  | String c rest => (if Ascii.eqb c "?" then 1 else 0) + qmarks rest
  end.

Definition qmarks_all (l : list string) : nat := list_sum (map qmarks l).

(** The [?] characters that the record's own names bring into the upsert
    text: the schema once, the table twice, the key three times, every other
    column twice. *)
Definition name_qmarks (pm : PGModel) : nat :=
  qmarks (SchemaName pm) + 2 * qmarks (TableName pm)
  + 3 * qmarks (PrimaryKey pm) + 2 * qmarks_all (NonPKColumns pm).

(** Names without a [?] of their own, as SQL identifiers are. *)
Definition names_plain (pm : PGModel) : Prop :=
  qmarks (SchemaName pm) = 0 /\ qmarks (TableName pm) = 0
  /\ qmarks (PrimaryKey pm) = 0 /\ qmarks_all (NonPKColumns pm) = 0.

(** One assignment of the [SET] clause. *)
Definition assignment (c : string) : string := (c ++ " = ?")%string.

(** SQL text read as its sequence of blank-separated words: the layout of a
    statement (a space, or the line break and tabs of the raw string literals)
    does not matter to it. *)
Definition is_space (c : ascii) : bool :=
  match c with
  | " "%char | "009"%char | "010"%char | "013"%char => true
  | _ => false
  end.

Definition flush (cur : string) : list string :=
  match cur with
  | EmptyString => []
  | String _ _ => [cur]
  end.

Fixpoint words_from (cur : string) (s : string) : list string :=
  match s with
  | EmptyString => flush cur
  | String c rest =>
      if is_space c then flush cur ++ words_from EmptyString rest
      else words_from (cur ++ String c EmptyString)%string rest
  end.

Definition sql_words (s : string) : list string := words_from EmptyString s.

(** Whether the dynamic type of a value is of kind [Slice]. *)
Definition is_slice (v : value) : bool :=
  match v with
  | nil_interface => false
  | dyn t _ =>
      match Kind_of t with
      | reflect.Slice => true
      | _ => false
      end
  end.

(** What the marshaler is specified to put in place of a value of column
    [c]. *)
Definition marshaled (pm : PGModel) (v : value) (c : string) : value :=
  if is_slice v then string_value (ConvertSlice pm c) else v.

Fixpoint marshaled_all (pm : PGModel) (vs : list value) (cs : list string)
  : list value :=
  match vs, cs with
  | v :: vs', c :: cs' => marshaled pm v c :: marshaled_all pm vs' cs'
  | _, _ => []
  end.

(** ** A recording transaction and the example record *)

Inductive method : Type := CallQueryOne | CallQuery.

Record call : Type := {
  call_method : method;
  call_model : target;
  call_query : string;
  call_params : list value
}.

(** A transaction that returns the call it received. *)
Definition recorder : Tx call := {|
  QueryOne := fun m q ps =>
    {| call_method := CallQueryOne; call_model := m; call_query := q;
       call_params := ps |};
  Query := fun m q ps =>
    {| call_method := CallQuery; call_model := m; call_query := q;
       call_params := ps |}
|}.

(** The record of the README: primary key [id], non-key columns [name] and
    [value], schema [foo], table [bars], three columns. *)
Definition Bar (id name val : value) (conv : string -> string) : PGModel := {|
  PrimaryKey := "id";
  PrimaryKeyValue := id;
  SchemaName := "foo";
  TableName := "bars";
  ColumnCount := 3;
  NonPKColumns := ["name"; "value"];
  NonPKValues := [name; val];
  ConvertSlice := conv
|}.

Definition int_value (z : Z) : value := dyn (Predeclared reflect.Int) (Bits z).

Definition float64s_value (l : list Z) : value :=
  dyn (SliceOf (Predeclared reflect.Float64)) (Elems (map Bits l)).

Definition braces (c : string) : string := ("{" ++ c ++ "}")%string.

Definition bar : PGModel :=
  Bar (int_value 7) (string_value "seven") (int_value 49) braces.

(** A table of its primary key alone. *)
Definition Key (id : value) : PGModel := {|
  PrimaryKey := "id";
  PrimaryKeyValue := id;
  SchemaName := "foo";
  TableName := "keys";
  ColumnCount := 1;
  NonPKColumns := [];
  NonPKValues := [];
  ConvertSlice := braces
|}.

(** A record with a slice-typed column. *)
Definition Series (id : value) (points : list Z) : PGModel := {|
  PrimaryKey := "id";
  PrimaryKeyValue := id;
  SchemaName := "foo";
  TableName := "series";
  ColumnCount := 3;
  NonPKColumns := ["label"; "points"];
  NonPKValues := [string_value "s"; float64s_value points];
  ConvertSlice := braces
|}.

(** The texts of the three templates, with the layout of the raw string
    literals ([NL] between the lines), and the one-line renderings of the
    select and delete statements. *)
Definition select_text (sn tn queryKey : string) : string :=
  ("SELECT * FROM " ++ sn ++ "." ++ tn ++ NL ++ "WHERE " ++ queryKey ++ " = ?")%string.

Definition select_line (sn tn queryKey : string) : string :=
  ("SELECT * FROM " ++ sn ++ "." ++ tn ++ " WHERE " ++ queryKey ++ " = ?")%string.

Definition delete_text (sn tn qualifier pk : string) : string :=
  ("DELETE FROM " ++ sn ++ "." ++ tn ++ NL
   ++ "WHERE " ++ qualifier ++ "." ++ pk ++ " = ?")%string.

Definition delete_line (sn tn qualifier pk : string) : string :=
  ("DELETE FROM " ++ sn ++ "." ++ tn
   ++ " WHERE " ++ qualifier ++ "." ++ pk ++ " = ?")%string.

Definition upsert_text (sn tn cols vals pk sets : string) : string :=
  ("INSERT INTO " ++ sn ++ "." ++ tn ++ " (" ++ cols ++ ") " ++ NL
   ++ "VALUES (" ++ vals ++ ") " ++ NL
   ++ "ON CONFLICT (" ++ pk ++ ") " ++ NL
   ++ "DO UPDATE" ++ NL
   ++ "SET " ++ sets ++ " " ++ NL
   ++ "WHERE " ++ tn ++ "." ++ pk ++ " = ?")%string.

(** The upsert text of the README record. *)
Definition bar_upsert : string :=
  ("INSERT INTO foo.bars (id, name, value) " ++ NL
   ++ "VALUES (?, ?, ?) " ++ NL
   ++ "ON CONFLICT (id) " ++ NL
   ++ "DO UPDATE" ++ NL
   ++ "SET name = ?, value = ? " ++ NL
   ++ "WHERE bars.id = ?")%string.

(** A scalar: a value that has a dynamic type, not of kind [Slice]. *)
Definition scalar (v : value) : Prop := v <> nil_interface /\ is_slice v = false.

(** The value [GetMany] asserts to be a [PGModel]. *)
Definition introspected (pm : list PGModel) : outcome value :=
  p <- reflect_New (reflect_TypeOf (models_value pm)) ;;
  e <- Value_Elem p ;;
  Ok (Value_Interface e).

Definition series : PGModel := Series (int_value 1) [1; 2; 3]%Z.

(** The upsert text with the qualifier of its last predicate left open: the
    table name now, the schema name in the earlier revision. *)
Definition upsert_text_qualified
    (sn tn cols vals pk sets qualifier : string) : string :=
  ("INSERT INTO " ++ sn ++ "." ++ tn ++ " (" ++ cols ++ ") " ++ NL
   ++ "VALUES (" ++ vals ++ ") " ++ NL
   ++ "ON CONFLICT (" ++ pk ++ ") " ++ NL
   ++ "DO UPDATE" ++ NL
   ++ "SET " ++ sets ++ " " ++ NL
   ++ "WHERE " ++ qualifier ++ "." ++ pk ++ " = ?")%string.

(** A parameter go-pg can bind as it is: not nil, not a slice. *)
Definition bindable (v : value) : Prop := v <> nil_interface /\ is_slice v = false.

(** A record whose schema and table have different names, with a nil and a
    slice among its values, and one with more values than column names. *)
Definition Mixed : PGModel := {|
  PrimaryKey := "id";
  PrimaryKeyValue := float64s_value [4; 2]%Z;
  SchemaName := "foo";
  TableName := "mixed";
  ColumnCount := 3;
  NonPKColumns := ["a"; "b"];
  NonPKValues := [nil_interface; float64s_value [1]%Z];
  ConvertSlice := braces
|}.

Definition Overfull : PGModel := {|
  PrimaryKey := "id";
  PrimaryKeyValue := int_value 1;
  SchemaName := "foo";
  TableName := "over";
  ColumnCount := 2;
  NonPKColumns := ["a"];
  NonPKValues := [int_value 2; int_value 3];
  ConvertSlice := braces
|}.

(** The same with a nil where there is a column name. *)
Definition OverfullNil : PGModel := {|
  PrimaryKey := "id";
  PrimaryKeyValue := int_value 1;
  SchemaName := "foo";
  TableName := "over";
  ColumnCount := 2;
  NonPKColumns := ["a"];
  NonPKValues := [nil_interface; int_value 3];
  ConvertSlice := braces
|}.

(** The README record as an [interface{}]: a value of the defined struct
    type [example.Bar], whose methods are those of [bar]. *)
Definition bar_value : value := dyn (Defined "example.Bar" StructLit) (Model bar).

(** A record that reports no column at all, and one that reports the
    smallest [int]. *)
Definition Uncounted (cc : Z) : PGModel := {|
  PrimaryKey := "id";
  PrimaryKeyValue := int_value 1;
  SchemaName := "foo";
  TableName := "bars";
  ColumnCount := cc;
  NonPKColumns := ["name"; "value"];
  NonPKValues := [string_value "n"; int_value 2];
  ConvertSlice := braces
|}.

(** * Properties *)

(** ** Strings *)

Lemma append_assoc (a b c : string) : ((a ++ b) ++ c = a ++ (b ++ c))%string.
Proof.
  induction a as [|x a IH]; simpl; [reflexivity | now rewrite IH].
Qed.

Lemma qmarks_app (a b : string) : qmarks (a ++ b) = qmarks a + qmarks b.
Proof.
  induction a as [|x a IH]; simpl; [reflexivity | rewrite IH; lia].
Qed.

Lemma qmarks_Join (l : list string) (sep : string) :
  qmarks (Join l sep) = qmarks_all l + (length l - 1) * qmarks sep.
Proof.
  unfold qmarks_all.
  induction l as [|a rest IH]; [reflexivity|].
  destruct rest as [|b rest].
  - simpl. lia.
  - change (Join (a :: b :: rest) sep) with (a ++ sep ++ Join (b :: rest) sep)%string.
    rewrite !qmarks_app, IH. simpl. lia.
Qed.

Lemma qmarks_all_repeat (n : nat) : qmarks_all (repeat "?"%string n) = n.
Proof.
  unfold qmarks_all.
  induction n as [|n IH]; simpl; [reflexivity | now rewrite IH].
Qed.

Lemma qmarks_all_assignments (cols : list string) :
  qmarks_all (map assignment cols) = length cols + qmarks_all cols.
Proof.
  unfold qmarks_all, assignment.
  induction cols as [|c cols IH]; simpl; [reflexivity|].
  rewrite qmarks_app, IH. simpl. lia.
Qed.

Lemma qmarks_all_cons (a : string) (l : list string) :
  qmarks_all (a :: l) = qmarks a + qmarks_all l.
Proof. reflexivity. Qed.

(** The line break and tabs of a raw string literal read as one blank. *)
Lemma words_from_NL (a b cur : string) :
  words_from cur (a ++ NL ++ b) = words_from cur (a ++ " " ++ b).
Proof.
  revert cur.
  induction a as [|x a IH]; intro cur.
  - simpl. destruct cur; reflexivity.
  - simpl. destruct (is_space x); rewrite IH; reflexivity.
Qed.

(** The head of [npkc[i:]] is [npkc[i]], and [npkc[i:]] is empty exactly when
    [i] is out of range: the indexing of [save_loop]. *)
Lemma skipn_head {A : Type} (l : list A) :
  forall i : nat,
    match skipn i l with
    | [] => nth_error l i = None
    | c :: rest => nth_error l i = Some c /\ rest = skipn (S i) l
    end.
Proof.
  induction l as [|a l IH]; intros [|i]; simpl; auto.
  apply IH.
Qed.

(** ** The formats *)

Lemma Sprintf_assignment (c : string) : Sprintf "%s = ?" [c] = assignment c.
Proof. reflexivity. Qed.

Lemma Sprintf_get_format (sn tn queryKey : string) :
  Sprintf get_format [sn; tn; queryKey] = select_text sn tn queryKey.
Proof. reflexivity. Qed.

Lemma Sprintf_delete_format (sn tn qualifier pk : string) :
  Sprintf delete_format [sn; tn; qualifier; pk] = delete_text sn tn qualifier pk.
Proof. reflexivity. Qed.

Lemma Sprintf_save_format (sn tn cols vals pk sets : string) :
  Sprintf save_format [sn; tn; cols; vals; pk; sets; tn; pk]
  = upsert_text sn tn cols vals pk sets.
Proof. reflexivity. Qed.

Lemma select_text_words (sn tn queryKey : string) :
  sql_words (select_text sn tn queryKey) = sql_words (select_line sn tn queryKey).
Proof.
  unfold sql_words, select_text, select_line.
  rewrite <- !(append_assoc _ _ (NL ++ _)).
  rewrite words_from_NL.
  rewrite !append_assoc. reflexivity.
Qed.

Lemma delete_text_words (sn tn qualifier pk : string) :
  sql_words (delete_text sn tn qualifier pk)
  = sql_words (delete_line sn tn qualifier pk).
Proof.
  unfold sql_words, delete_text, delete_line.
  rewrite <- !(append_assoc _ _ (NL ++ _)).
  rewrite words_from_NL.
  rewrite !append_assoc. reflexivity.
Qed.

(** ** The upsert template *)

Lemma int_sub_small (cc : Z) :
  int_range cc -> (1 <= cc)%Z -> int_sub cc 1 = (cc - 1)%Z.
Proof.
  unfold int_range, int_sub, int_wrap. intros Hr H1.
  rewrite Z.mod_small; lia.
Qed.

(** The loop runs [bound - i] times when [npkc[i:]] is long enough: it adds
    one ["?"] and one assignment per column it visits. *)
Lemma save_loop_ok (rest : list string) :
  forall (len : nat) (bound i : Z) (im sm : list string),
    (bound - i <= Z.of_nat (length rest))%Z ->
    save_loop rest len bound i im sm
    = Ok (im ++ repeat "?"%string (Z.to_nat (bound - i)),
          sm ++ map assignment (firstn (Z.to_nat (bound - i)) rest)).
Proof.
  induction rest as [|c rest IH]; intros len bound i im sm Hle; simpl in Hle.
  - simpl. destruct (Z.ltb_spec i bound) as [Hlt|Hge]; [lia|].
    replace (Z.to_nat (bound - i)) with 0%nat by lia.
    simpl. now rewrite !app_nil_r.
  - simpl. destruct (Z.ltb_spec i bound) as [Hlt|Hge].
    + rewrite IH by lia.
      replace (Z.to_nat (bound - i)) with (S (Z.to_nat (bound - (i + 1)))) by lia.
      simpl. rewrite <- !app_assoc. reflexivity.
    + replace (Z.to_nat (bound - i)) with 0%nat by lia.
      simpl. now rewrite !app_nil_r.
Qed.

(** It panics on the first index past the end of [npkc] otherwise. *)
Lemma save_loop_panic (rest : list string) :
  forall (len : nat) (bound i : Z) (im sm : list string),
    (Z.of_nat (length rest) < bound - i)%Z ->
    save_loop rest len bound i im sm
    = Panic (IndexOutOfRange (i + Z.of_nat (length rest)) len).
Proof.
  induction rest as [|c rest IH]; intros len bound i im sm Hlt; simpl in Hlt.
  - simpl. destruct (Z.ltb_spec i bound); [|lia].
    now rewrite Z.add_0_r.
  - simpl. destruct (Z.ltb_spec i bound); [|lia].
    rewrite IH by lia. do 2 f_equal. lia.
Qed.

Lemma createSaveQuery_ok (pm : PGModel) :
  (int_sub (ColumnCount pm) 1 <= Z.of_nat (length (NonPKColumns pm)))%Z ->
  let n := Z.to_nat (int_sub (ColumnCount pm) 1) in
  createSaveQuery pm
  = Ok (upsert_text (SchemaName pm) (TableName pm)
          (Join (PrimaryKey pm :: NonPKColumns pm) ", ")
          (Join (repeat "?"%string (S n)) ", ")
          (PrimaryKey pm)
          (Join (map assignment (firstn n (NonPKColumns pm))) ", ")).
Proof.
  intros Hle n. unfold createSaveQuery.
  rewrite save_loop_ok by lia.
  rewrite Z.sub_0_r. fold n. cbn [bind app].
  rewrite Sprintf_save_format. reflexivity.
Qed.

Lemma createSaveQuery_short_columns (pm : PGModel) :
  (Z.of_nat (length (NonPKColumns pm)) < int_sub (ColumnCount pm) 1)%Z ->
  createSaveQuery pm
  = Panic (IndexOutOfRange (Z.of_nat (length (NonPKColumns pm)))
             (length (NonPKColumns pm))).
Proof.
  intros Hlt. unfold createSaveQuery.
  rewrite save_loop_panic by lia. reflexivity.
Qed.

Lemma qmarks_upsert_text (sn tn cols vals pk sets : string) :
  qmarks (upsert_text sn tn cols vals pk sets)
  = qmarks sn + 2 * qmarks tn + 2 * qmarks pk
    + qmarks cols + qmarks vals + qmarks sets + 1.
Proof.
  unfold upsert_text. rewrite !qmarks_app. simpl. lia.
Qed.

(** C1.  For every record whose [NonPKColumns] has [ColumnCount() - 1]
    entries, [createSaveQuery] returns the upsert text whose VALUES list is
    [ColumnCount()] placeholders, whose SET clause is one assignment
    [<column> = ?] per non-key column, [ColumnCount() - 1] of them, and
    whose final predicate carries one more placeholder: [2 * ColumnCount()]
    placeholders in all.  Counted as [?] characters of the text, these are
    all of them but for those in the record's own names ([name_qmarks]),
    hence exactly [2 * ColumnCount()] when the names have none. *)
Theorem createSaveQuery_placeholder_count (pm : PGModel) :
  int_range (ColumnCount pm) ->
  Z.of_nat (length (NonPKColumns pm)) = (ColumnCount pm - 1)%Z ->
  let cc := ColumnCount pm in
  let im := repeat "?"%string (Z.to_nat cc) in
  let sm := map assignment (NonPKColumns pm) in
  exists q : string,
    createSaveQuery pm = Ok q
    /\ q = upsert_text (SchemaName pm) (TableName pm)
             (Join (PrimaryKey pm :: NonPKColumns pm) ", ")
             (Join im ", ") (PrimaryKey pm) (Join sm ", ")
    /\ Z.of_nat (length im) = cc
    /\ Z.of_nat (qmarks (Join im ", ")) = cc
    /\ Z.of_nat (length sm) = (cc - 1)%Z
    /\ Z.of_nat (qmarks (Join sm ", "))
       = (cc - 1 + Z.of_nat (qmarks_all (NonPKColumns pm)))%Z
    /\ Z.of_nat (qmarks q) = (2 * cc + Z.of_nat (name_qmarks pm))%Z
    /\ (names_plain pm -> Z.of_nat (qmarks q) = (2 * cc)%Z).
Proof.
  intros Hr Hlen cc im sm.
  assert (H1 : (1 <= cc)%Z) by (unfold cc; lia).
  assert (Hsub : int_sub cc 1 = (cc - 1)%Z) by (apply int_sub_small; assumption).
  assert (Hn : Z.to_nat (int_sub cc 1) = length (NonPKColumns pm))
    by (rewrite Hsub; unfold cc; lia).
  assert (Him : im = repeat "?"%string (S (length (NonPKColumns pm)))).
  { unfold im. f_equal. unfold cc. lia. }
  assert (Hqim : qmarks (Join im ", ") = S (length (NonPKColumns pm))).
  { rewrite qmarks_Join, Him, qmarks_all_repeat. simpl. lia. }
  assert (Hqsm : qmarks (Join sm ", ")
                 = length (NonPKColumns pm) + qmarks_all (NonPKColumns pm)).
  { unfold sm. rewrite qmarks_Join, qmarks_all_assignments. simpl. lia. }
  assert (Hq : qmarks (upsert_text (SchemaName pm) (TableName pm)
                         (Join (PrimaryKey pm :: NonPKColumns pm) ", ")
                         (Join im ", ") (PrimaryKey pm) (Join sm ", "))
               = 2 * S (length (NonPKColumns pm)) + name_qmarks pm).
  { rewrite qmarks_upsert_text, Hqim, Hqsm, qmarks_Join, qmarks_all_cons.
    unfold name_qmarks. simpl. lia. }
  eexists. split; [|split; [reflexivity|]].
  - rewrite createSaveQuery_ok by (fold cc; lia).
    fold cc. rewrite Hn, firstn_all, <- Him. reflexivity.
  - repeat split.
    + rewrite Him, repeat_length. unfold cc. lia.
    + rewrite Hqim. unfold cc. lia.
    + unfold sm. rewrite length_map. unfold cc. lia.
    + rewrite Hqsm. unfold cc. lia.
    + rewrite Hq. unfold cc. lia.
    + intros (Hsn & Htn & Hpk & Hcols). rewrite Hq. unfold name_qmarks.
      rewrite Hsn, Htn, Hpk, Hcols. unfold cc. lia.
Qed.

Lemma createSaveQuery_placeholder_count_witness :
  exists q : string,
    createSaveQuery bar = Ok q /\ Z.of_nat (qmarks q) = 6%Z.
Proof.
  assert (Hr : int_range (ColumnCount bar)) by (unfold int_range; simpl; lia).
  assert (Hlen : Z.of_nat (length (NonPKColumns bar)) = (ColumnCount bar - 1)%Z)
    by reflexivity.
  destruct (createSaveQuery_placeholder_count bar Hr Hlen)
    as (q & Hq & _ & _ & _ & _ & _ & _ & Hplain).
  exists q. split; [exact Hq|].
  apply Hplain. repeat split; reflexivity.
Defined.

(** C9.  For a record of one column [createSaveQuery] raises nothing and
    returns the upsert text with an empty SET clause: nothing stands between
    [SET] and the final [WHERE] but the blanks of the template.  With no
    non-key column the column list is the primary key alone. *)
Theorem createSaveQuery_single_column (pm : PGModel) :
  ColumnCount pm = 1%Z ->
  createSaveQuery pm
  = Ok (upsert_text (SchemaName pm) (TableName pm)
          (Join (PrimaryKey pm :: NonPKColumns pm) ", ") "?"
          (PrimaryKey pm) "")
  /\ (NonPKColumns pm = [] ->
      createSaveQuery pm
      = Ok ("INSERT INTO " ++ SchemaName pm ++ "." ++ TableName pm
            ++ " (" ++ PrimaryKey pm ++ ") " ++ NL
            ++ "VALUES (?) " ++ NL
            ++ "ON CONFLICT (" ++ PrimaryKey pm ++ ") " ++ NL
            ++ "DO UPDATE" ++ NL
            ++ "SET  " ++ NL
            ++ "WHERE " ++ TableName pm ++ "." ++ PrimaryKey pm ++ " = ?")%string).
Proof.
  intros Hcc.
  assert (Hq : createSaveQuery pm
               = Ok (upsert_text (SchemaName pm) (TableName pm)
                       (Join (PrimaryKey pm :: NonPKColumns pm) ", ") "?"
                       (PrimaryKey pm) "")).
  { rewrite createSaveQuery_ok; rewrite Hcc; [reflexivity|].
    change (int_sub 1 1) with 0%Z. lia. }
  split; [exact Hq|].
  intros Hnil. rewrite Hq, Hnil. reflexivity.
Qed.

Lemma createSaveQuery_single_column_witness :
  createSaveQuery (Key (int_value 1))
  = Ok ("INSERT INTO foo.keys (id) " ++ NL
        ++ "VALUES (?) " ++ NL
        ++ "ON CONFLICT (id) " ++ NL
        ++ "DO UPDATE" ++ NL
        ++ "SET  " ++ NL
        ++ "WHERE keys.id = ?")%string.
Proof.
  exact (proj2 (createSaveQuery_single_column (Key (int_value 1)) eq_refl) eq_refl).
Defined.

(** ** The value marshaler *)

Lemma convertVariable_nil (pm : PGModel) (c : string) :
  convertVariable pm nil_interface c = Panic NilPointerDereference.
Proof. reflexivity. Qed.

Lemma convertVariable_marshaled (pm : PGModel) (v : value) (c : string) :
  v <> nil_interface -> convertVariable pm v c = Ok (marshaled pm v c).
Proof.
  destruct v as [|t d]; [congruence|]. intros _.
  unfold convertVariable, marshaled, is_slice. simpl.
  destruct (Kind_of t); reflexivity.
Qed.

Lemma elem_at_middle {A : Type} (pre : list A) (a : A) (post : list A) :
  elem_at (pre ++ a :: post) (length pre) = Ok a.
Proof.
  unfold elem_at. rewrite nth_error_app2 by lia.
  now rewrite Nat.sub_diag.
Qed.

Lemma elem_at_end {A : Type} (l : list A) :
  elem_at l (length l) = Panic (IndexOutOfRange (Z.of_nat (length l)) (length l)).
Proof.
  unfold elem_at.
  destruct (nth_error l (length l)) eqn:E; [|reflexivity].
  assert (H : nth_error l (length l) <> None) by congruence.
  apply nth_error_Some in H. lia.
Qed.

(** With enough column names and no nil value the loop marshals every value
    under the name at its index. *)
Lemma convertVariables_from_ok (pm : PGModel) (us : list value) :
  forall (pre cs : list string) (cv : list value),
    NonPKColumns pm = pre ++ cs ->
    Forall (fun v => v <> nil_interface) us ->
    length us <= length cs ->
    convertVariables_from pm (length pre) us cv
    = Ok (cv ++ marshaled_all pm us cs).
Proof.
  induction us as [|u us IH]; intros pre cs cv Hcols Hnn Hlen.
  - simpl. now rewrite app_nil_r.
  - destruct cs as [|c cs]; [simpl in Hlen; lia|].
    inversion Hnn as [|? ? Hu Hus]; subst.
    simpl. rewrite Hcols, elem_at_middle. cbn [bind].
    rewrite convertVariable_marshaled by assumption. cbn [bind].
    replace (S (length pre)) with (length (pre ++ [c]))
      by (rewrite length_app; simpl; lia).
    rewrite (IH (pre ++ [c]) cs).
    + now rewrite <- app_assoc.
    + now rewrite Hcols, <- app_assoc.
    + assumption.
    + simpl in Hlen. lia.
Qed.

Lemma convertVariables_ok (pm : PGModel) :
  Forall (fun v => v <> nil_interface) (NonPKValues pm) ->
  length (NonPKValues pm) <= length (NonPKColumns pm) ->
  convertVariables pm
  = Ok (marshaled_all pm (NonPKValues pm) (NonPKColumns pm)).
Proof.
  intros Hnn Hlen. unfold convertVariables.
  now rewrite (convertVariables_from_ok pm _ [] (NonPKColumns pm) []).
Qed.

(** A nil among the values makes the loop panic, whatever the columns. *)
Lemma convertVariables_from_nil (pm : PGModel) (us : list value) :
  forall (i : nat) (cv : list value),
    In nil_interface us -> panics (convertVariables_from pm i us cv).
Proof.
  induction us as [|u us IH]; intros i cv Hin; [contradiction|].
  simpl. destruct (elem_at (NonPKColumns pm) i) as [c|p]; cbn [bind];
    [|now exists p].
  destruct u as [|t d].
  - rewrite convertVariable_nil. cbn [bind]. now eexists.
  - rewrite convertVariable_marshaled by discriminate. cbn [bind].
    apply IH. destruct Hin as [Hin|Hin]; [discriminate | assumption].
Qed.

(** With enough column names the panic is the nil dereference. *)
Lemma convertVariables_from_nil_deref (pm : PGModel) (us : list value) :
  forall (pre cs : list string) (cv : list value),
    NonPKColumns pm = pre ++ cs ->
    In nil_interface us ->
    length us <= length cs ->
    convertVariables_from pm (length pre) us cv = Panic NilPointerDereference.
Proof.
  induction us as [|u us IH]; intros pre cs cv Hcols Hin Hlen; [contradiction|].
  destruct cs as [|c cs]; [simpl in Hlen; lia|].
  simpl. rewrite Hcols, elem_at_middle. cbn [bind].
  destruct u as [|t d].
  - reflexivity.
  - rewrite convertVariable_marshaled by discriminate. cbn [bind].
    replace (S (length pre)) with (length (pre ++ [c]))
      by (rewrite length_app; simpl; lia).
    apply (IH (pre ++ [c]) cs).
    + now rewrite Hcols, <- app_assoc.
    + destruct Hin as [Hin|Hin]; [discriminate | assumption].
    + simpl in Hlen. lia.
Qed.

Lemma marshaled_all_length (pm : PGModel) (vs : list value) :
  forall cs : list string,
    length vs <= length cs -> length (marshaled_all pm vs cs) = length vs.
Proof.
  induction vs as [|v vs IH]; intros [|c cs] Hlen; simpl in *;
    try reflexivity; try lia.
  rewrite IH; lia.
Qed.

Lemma marshaled_all_nth (pm : PGModel) (vs : list value) :
  forall (cs : list string) (i : nat) (v : value) (c : string),
    nth_error vs i = Some v -> nth_error cs i = Some c ->
    nth_error (marshaled_all pm vs cs) i = Some (marshaled pm v c).
Proof.
  induction vs as [|u vs IH]; intros [|d cs] [|i] v c Hv Hc;
    simpl in *; try discriminate.
  - congruence.
  - now apply IH.
Qed.

Lemma marshaled_all_scalars (pm : PGModel) (vs : list value) :
  forall cs : list string,
    Forall (fun v => is_slice v = false) vs ->
    length vs <= length cs -> marshaled_all pm vs cs = vs.
Proof.
  induction vs as [|v vs IH]; intros [|c cs] Hs Hlen; simpl in *;
    try reflexivity; try lia.
  inversion Hs as [|? ? Hv Hvs]; subst.
  unfold marshaled at 1. rewrite Hv, IH; [reflexivity | assumption | lia].
Qed.

(** ** Save *)

Lemma Save_ok {R : Type} (pm : PGModel) (t : Tx R) (q : string) :
  PrimaryKeyValue pm <> nil_interface ->
  Forall (fun v => v <> nil_interface) (NonPKValues pm) ->
  length (NonPKValues pm) <= length (NonPKColumns pm) ->
  createSaveQuery pm = Ok q ->
  let pkv := marshaled pm (PrimaryKeyValue pm) (PrimaryKey pm) in
  let npkv := marshaled_all pm (NonPKValues pm) (NonPKColumns pm) in
  Save pm t = Ok (Query t (OneModel pm) q ([pkv] ++ npkv ++ npkv ++ [pkv])).
Proof.
  intros Hpk Hnn Hlen Hq pkv npkv. unfold Save.
  rewrite convertVariable_marshaled by assumption. cbn [bind].
  rewrite convertVariables_ok by assumption. cbn [bind].
  rewrite Hq. cbn [bind]. fold pkv npkv.
  now rewrite <- !app_assoc.
Qed.

(** C2.  On every record that [Save] can marshal (no nil value, a column
    name for every non-key value, enough names for the upsert template)
    [Save] hands the transaction the primary-key value, then the non-key
    values in the order of [NonPKValues] and [NonPKColumns], then these
    non-key values again in the same order, then the primary-key value
    again; each value is the one the marshaler yields for it, which is the
    value itself when no value is a slice. *)
Theorem Save_parameter_order {R : Type} (pm : PGModel) (t : Tx R) :
  PrimaryKeyValue pm <> nil_interface ->
  Forall (fun v => v <> nil_interface) (NonPKValues pm) ->
  length (NonPKValues pm) <= length (NonPKColumns pm) ->
  (int_sub (ColumnCount pm) 1 <= Z.of_nat (length (NonPKColumns pm)))%Z ->
  let pkv := marshaled pm (PrimaryKeyValue pm) (PrimaryKey pm) in
  let npkv := marshaled_all pm (NonPKValues pm) (NonPKColumns pm) in
  exists q : string,
    createSaveQuery pm = Ok q
    /\ Save pm t = Ok (Query t (OneModel pm) q ([pkv] ++ npkv ++ npkv ++ [pkv]))
    /\ length npkv = length (NonPKValues pm)
    /\ (forall (i : nat) (v : value) (c : string),
          nth_error (NonPKValues pm) i = Some v ->
          nth_error (NonPKColumns pm) i = Some c ->
          nth_error npkv i = Some (marshaled pm v c))
    /\ (is_slice (PrimaryKeyValue pm) = false ->
        Forall (fun v => is_slice v = false) (NonPKValues pm) ->
        [pkv] ++ npkv ++ npkv ++ [pkv]
        = [PrimaryKeyValue pm] ++ NonPKValues pm ++ NonPKValues pm
          ++ [PrimaryKeyValue pm]).
Proof.
  intros Hpk Hnn Hlen Hcc pkv npkv.
  eexists. split; [apply createSaveQuery_ok; assumption|].
  split; [apply Save_ok; try assumption; apply createSaveQuery_ok; assumption|].
  split; [apply marshaled_all_length; assumption|].
  split; [intros i v c; apply marshaled_all_nth|].
  intros Hs Hss. subst pkv npkv.
  rewrite marshaled_all_scalars by assumption.
  unfold marshaled. rewrite Hs. reflexivity.
Qed.

Lemma Save_parameter_order_witness :
  exists q : string,
    Save bar recorder
    = Ok (Query recorder (OneModel bar) q
            [int_value 7; string_value "seven"; int_value 49;
             string_value "seven"; int_value 49; int_value 7]).
Proof.
  assert (Hpk : PrimaryKeyValue bar <> nil_interface) by discriminate.
  assert (Hnn : Forall (fun v => v <> nil_interface) (NonPKValues bar))
    by (repeat constructor; discriminate).
  assert (Hlen : length (NonPKValues bar) <= length (NonPKColumns bar))
    by (simpl; lia).
  assert (Hcc : (int_sub (ColumnCount bar) 1
                 <= Z.of_nat (length (NonPKColumns bar)))%Z)
    by (vm_compute; discriminate).
  destruct (Save_parameter_order bar recorder Hpk Hnn Hlen Hcc)
    as (q & _ & Hsave & _).
  exists q. exact Hsave.
Defined.

(** C3, as the code has it.  For the record with primary key [id], non-key
    columns [name] and [value], schema [foo], table [bars] and three columns,
    with scalar values, [Save] passes the upsert text [bar_upsert], which has
    3 + 2 + 1 = 6 placeholders, and the six parameters
    [pk, name, value, name, value, pk]. *)
Theorem Save_Bar_six_parameters {R : Type} (t : Tx R)
    (id name val : value) (conv : string -> string) :
  scalar id -> scalar name -> scalar val ->
  Save (Bar id name val conv) t
  = Ok (Query t (OneModel (Bar id name val conv)) bar_upsert
          [id; name; val; name; val; id])
  /\ qmarks bar_upsert = 3 + 2 + 1
  /\ length [id; name; val; name; val; id] = 6.
Proof.
  intros [Hid Sid] [Hname Sname] [Hval Sval].
  split; [|split; reflexivity].
  rewrite (Save_ok (Bar id name val conv) t bar_upsert).
  - unfold marshaled. simpl. unfold marshaled. rewrite Sid, Sname, Sval.
    reflexivity.
  - exact Hid.
  - simpl. repeat constructor; assumption.
  - simpl. lia.
  - reflexivity.
Qed.

Lemma Save_Bar_six_parameters_witness :
  Save bar recorder
  = Ok (Query recorder (OneModel bar) bar_upsert
          [int_value 7; string_value "seven"; int_value 49;
           string_value "seven"; int_value 49; int_value 7])
  /\ qmarks bar_upsert = 6.
Proof.
  assert (H7 : scalar (int_value 7)) by (split; [discriminate | reflexivity]).
  assert (Hs : scalar (string_value "seven"))
    by (split; [discriminate | reflexivity]).
  assert (H49 : scalar (int_value 49)) by (split; [discriminate | reflexivity]).
  destruct (Save_Bar_six_parameters recorder _ _ _ braces H7 Hs H49)
    as (Hsave & Hq & _).
  split; [exact Hsave | exact Hq].
Defined.

(** The count of five does not hold on the README record: [Save] does not
    pass a text of five placeholders with five parameters. *)
Lemma Save_Bar_not_five :
  ~ (exists c : call,
       Save bar recorder = Ok c
       /\ qmarks (call_query c) = 5 /\ length (call_params c) = 5).
Proof.
  intros (c & Hsave & Hq & Hlen).
  vm_compute in Hsave. inversion Hsave; subst c; clear Hsave.
  vm_compute in Hlen. discriminate.
Qed.

(** C7.  A value whose dynamic type is of kind [Slice] is marshaled to the
    string the record's [ConvertSlice] returns for the column name, and so
    the parameters of [Save] hold that string wherever a value is a slice:
    at both occurrences of each non-key value and of the primary-key
    value. *)
Theorem convertVariable_slice_is_ConvertSlice (pm : PGModel) :
  (forall (v : value) (c : string),
      is_slice v = true ->
      convertVariable pm v c = Ok (string_value (ConvertSlice pm c)))
  /\ (PrimaryKeyValue pm <> nil_interface ->
      Forall (fun v => v <> nil_interface) (NonPKValues pm) ->
      length (NonPKValues pm) <= length (NonPKColumns pm) ->
      (int_sub (ColumnCount pm) 1 <= Z.of_nat (length (NonPKColumns pm)))%Z ->
      exists (q : string) (tv : list value),
        (forall (R : Type) (t : Tx R),
            Save pm t = Ok (Query t (OneModel pm) q tv))
        /\ length tv = 2 * length (NonPKValues pm) + 2
        /\ (is_slice (PrimaryKeyValue pm) = true ->
            let s := string_value (ConvertSlice pm (PrimaryKey pm)) in
            nth_error tv 0 = Some s
            /\ nth_error tv (2 * length (NonPKValues pm) + 1) = Some s)
        /\ (forall (i : nat) (v : value) (c : string),
              nth_error (NonPKValues pm) i = Some v ->
              nth_error (NonPKColumns pm) i = Some c ->
              is_slice v = true ->
              let s := string_value (ConvertSlice pm c) in
              nth_error tv (1 + i) = Some s
              /\ nth_error tv (1 + length (NonPKValues pm) + i) = Some s)).
Proof.
  split.
  { intros v c Hs. rewrite convertVariable_marshaled.
    - unfold marshaled. now rewrite Hs.
    - intros ->. discriminate. }
  intros Hpk Hnn Hlen Hcc.
  set (pkv := marshaled pm (PrimaryKeyValue pm) (PrimaryKey pm)).
  set (npkv := marshaled_all pm (NonPKValues pm) (NonPKColumns pm)).
  assert (Hn : length npkv = length (NonPKValues pm))
    by (apply marshaled_all_length; assumption).
  eexists. exists ([pkv] ++ npkv ++ npkv ++ [pkv]).
  split; [intros R t; apply Save_ok; try assumption;
          apply createSaveQuery_ok; assumption|].
  split; [rewrite !length_app, Hn; simpl; lia|].
  split.
  - intros Hs s. split.
    + simpl. unfold pkv, marshaled. now rewrite Hs.
    + change ([pkv] ++ npkv ++ npkv ++ [pkv]) with (pkv :: npkv ++ npkv ++ [pkv]).
      replace (2 * length (NonPKValues pm) + 1)
        with (S (length npkv + length npkv)) by lia.
      cbn [nth_error].
      rewrite nth_error_app2 by lia.
      replace (length npkv + length npkv - length npkv) with (length npkv) by lia.
      rewrite nth_error_app2 by lia. rewrite Nat.sub_diag. simpl.
      unfold pkv, marshaled. now rewrite Hs.
  - intros i v c Hv Hc Hs s.
    assert (Hi : nth_error npkv i = Some s).
    { unfold npkv. rewrite (marshaled_all_nth pm _ _ i v c Hv Hc).
      unfold marshaled. now rewrite Hs. }
    assert (Hlt : i < length npkv)
      by (apply nth_error_Some; congruence).
    change ([pkv] ++ npkv ++ npkv ++ [pkv]) with (pkv :: npkv ++ npkv ++ [pkv]).
    split.
    + cbn [Nat.add nth_error]. now rewrite nth_error_app1.
    + rewrite <- Hn. cbn [Nat.add nth_error].
      rewrite nth_error_app2 by lia.
      replace (length npkv + i - length npkv) with i by lia.
      now rewrite nth_error_app1.
Qed.

Lemma convertVariable_slice_is_ConvertSlice_witness :
  convertVariable series (float64s_value [1; 2; 3]%Z) "points"
  = Ok (string_value "{points}")
  /\ exists (q : string) (tv : list value),
       Save series recorder = Ok (Query recorder (OneModel series) q tv)
       /\ nth_error tv 2 = Some (string_value "{points}")
       /\ nth_error tv 4 = Some (string_value "{points}").
Proof.
  destruct (convertVariable_slice_is_ConvertSlice series) as [Hconv Hsave].
  split; [exact (Hconv (float64s_value [1; 2; 3]%Z) "points" eq_refl)|].
  assert (Hpk : PrimaryKeyValue series <> nil_interface) by discriminate.
  assert (Hnn : Forall (fun v => v <> nil_interface) (NonPKValues series))
    by (repeat constructor; discriminate).
  assert (Hlen : length (NonPKValues series) <= length (NonPKColumns series))
    by (simpl; lia).
  assert (Hcc : (int_sub (ColumnCount series) 1
                 <= Z.of_nat (length (NonPKColumns series)))%Z)
    by (vm_compute; discriminate).
  destruct (Hsave Hpk Hnn Hlen Hcc) as (q & tv & Hcall & _ & _ & Hnth).
  exists q, tv. split; [apply Hcall|].
  exact (Hnth 1 (float64s_value [1; 2; 3]%Z) "points"%string
           eq_refl eq_refl eq_refl).
Defined.

(** C8.  A value whose dynamic type is not of kind [Slice] is marshaled to
    itself. *)
Theorem convertVariable_scalar_identity
    (pm : PGModel) (v : value) (c : string) (t : rtype) :
  reflect_TypeOf v = Some t ->
  Kind_of t <> reflect.Slice ->
  convertVariable pm v c = Ok v.
Proof.
  intros Ht Hk. destruct v as [|t' d]; [discriminate|].
  simpl in Ht. injection Ht as ->.
  unfold convertVariable. simpl.
  destruct (Kind_of t); try reflexivity. congruence.
Qed.

Lemma convertVariable_scalar_identity_witness :
  convertVariable bar (int_value 49) "value" = Ok (int_value 49).
Proof.
  apply (convertVariable_scalar_identity bar (int_value 49) "value"
           (Predeclared reflect.Int)).
  - reflexivity.
  - simpl. discriminate.
Defined.

(** C10.  [convertVariable] panics on the nil interface value, by the nil
    dereference of [rt.Kind()], and returns on every other value.  So [Save]
    panics, and calls no query, when the primary-key value or one of the
    non-key values is nil: with the nil dereference when the key is nil, or
    when a non-key value is and the columns cover the values. *)
Theorem Save_nil_value_panics {R : Type} (pm : PGModel) (t : Tx R) :
  (forall c : string,
      convertVariable pm nil_interface c = Panic NilPointerDereference)
  /\ (forall (v : value) (c : string),
        v <> nil_interface -> returns (convertVariable pm v c))
  /\ (PrimaryKeyValue pm = nil_interface ->
      Save pm t = Panic NilPointerDereference)
  /\ (In nil_interface (NonPKValues pm) -> panics (Save pm t))
  /\ (In nil_interface (NonPKValues pm) ->
      length (NonPKValues pm) <= length (NonPKColumns pm) ->
      Save pm t = Panic NilPointerDereference).
Proof.
  split; [intro c; apply convertVariable_nil|].
  split.
  { intros v c Hv. eexists. apply convertVariable_marshaled. exact Hv. }
  split.
  { intros Hpk. unfold Save. rewrite Hpk. reflexivity. }
  split.
  - intros Hin. unfold Save.
    destruct (convertVariable pm (PrimaryKeyValue pm) (PrimaryKey pm))
      as [pkv|p]; cbn [bind]; [|now exists p].
    destruct (convertVariables_from_nil pm (NonPKValues pm) 0 [] Hin)
      as [p Hp].
    unfold convertVariables. rewrite Hp. cbn [bind]. now exists p.
  - intros Hin Hlen. unfold Save.
    destruct (convertVariable pm (PrimaryKeyValue pm) (PrimaryKey pm))
      as [pkv|p] eqn:E; cbn [bind].
    + unfold convertVariables.
      now rewrite (convertVariables_from_nil_deref pm _ [] (NonPKColumns pm) []).
    + destruct (PrimaryKeyValue pm) as [|t0 d0].
      * rewrite convertVariable_nil in E. congruence.
      * rewrite convertVariable_marshaled in E by discriminate. discriminate.
Qed.

Lemma Save_nil_value_panics_witness :
  Save (Bar nil_interface (string_value "seven") (int_value 49) braces) recorder
  = Panic NilPointerDereference
  /\ Save (Bar (int_value 7) nil_interface (int_value 49) braces) recorder
     = Panic NilPointerDereference.
Proof.
  split.
  - apply (proj1 (proj2 (proj2 (Save_nil_value_panics
             (Bar nil_interface (string_value "seven") (int_value 49) braces)
             recorder)))).
    reflexivity.
  - apply (proj2 (proj2 (proj2 (proj2 (Save_nil_value_panics
             (Bar (int_value 7) nil_interface (int_value 49) braces)
             recorder))))).
    + simpl. left. reflexivity.
    + simpl. lia.
Defined.

(** [Save] returns on exactly the records that satisfy the four conditions
    of [Save_ok] and [createSaveQuery_ok]: they leave out no record that
    reaches the transaction. *)
Lemma convertVariables_from_returns (pm : PGModel) (us : list value) :
  forall (pre cs : list string) (cv r : list value),
    NonPKColumns pm = pre ++ cs ->
    convertVariables_from pm (length pre) us cv = Ok r ->
    Forall (fun v => v <> nil_interface) us /\ length us <= length cs.
Proof.
  induction us as [|u us IH]; intros pre cs cv r Hcols Hr.
  - split; [constructor | simpl; lia].
  - simpl in Hr. destruct cs as [|c cs].
    + rewrite app_nil_r in Hcols. rewrite Hcols, elem_at_end in Hr.
      discriminate.
    + rewrite Hcols, elem_at_middle in Hr. cbn [bind] in Hr.
      destruct u as [|t d]; [discriminate|].
      rewrite convertVariable_marshaled in Hr by discriminate.
      cbn [bind] in Hr.
      replace (S (length pre)) with (length (pre ++ [c])) in Hr
        by (rewrite length_app; simpl; lia).
      apply (IH (pre ++ [c]) cs) in Hr.
      * destruct Hr as [Hnn Hlen]. split.
        -- constructor; [discriminate | assumption].
        -- simpl. lia.
      * now rewrite Hcols, <- app_assoc.
Qed.

Lemma Save_returns_iff {R : Type} (pm : PGModel) (t : Tx R) :
  returns (Save pm t)
  <-> (PrimaryKeyValue pm <> nil_interface
       /\ Forall (fun v => v <> nil_interface) (NonPKValues pm)
       /\ length (NonPKValues pm) <= length (NonPKColumns pm)
       /\ (int_sub (ColumnCount pm) 1
           <= Z.of_nat (length (NonPKColumns pm)))%Z).
Proof.
  split.
  - intros [r Hr]. unfold Save in Hr.
    destruct (PrimaryKeyValue pm) as [|t0 d0] eqn:Epk; [discriminate|].
    rewrite convertVariable_marshaled in Hr by discriminate.
    cbn [bind] in Hr.
    destruct (convertVariables pm) as [npkv|p] eqn:Ecv; [|discriminate].
    cbn [bind] in Hr.
    apply (convertVariables_from_returns pm _ [] (NonPKColumns pm)) in Ecv;
      [|reflexivity].
    destruct Ecv as [Hnn Hlen].
    split; [discriminate|]. split; [assumption|]. split; [assumption|].
    destruct (Z.le_gt_cases (int_sub (ColumnCount pm) 1)
                (Z.of_nat (length (NonPKColumns pm)))) as [Hle|Hgt];
      [assumption|].
    rewrite createSaveQuery_short_columns in Hr by lia. discriminate.
  - intros (Hpk & Hnn & Hlen & Hcc). eexists.
    apply Save_ok; try assumption. apply createSaveQuery_ok. assumption.
Qed.

(** ** Get and GetMany *)

Lemma createGetQuery_text (pm : PGModel) (queryKey : string) (queryValue : value) :
  createGetQuery pm queryKey queryValue
  = select_text (SchemaName pm) (TableName pm) queryKey.
Proof. reflexivity. Qed.

(** [Get] passes the select text, in the words the specification gives it,
    and the query value as its one parameter. *)
Lemma Get_call {R : Type} (pm : PGModel) (t : Tx R)
    (queryKey : string) (queryValue : value) :
  Get pm t queryKey queryValue
  = Ok (QueryOne t (OneModel pm)
          (select_text (SchemaName pm) (TableName pm) queryKey) [queryValue])
  /\ sql_words (select_text (SchemaName pm) (TableName pm) queryKey)
     = sql_words (select_line (SchemaName pm) (TableName pm) queryKey).
Proof.
  split; [reflexivity | apply select_text_words].
Qed.

Lemma Get_Bar (id name val : value) (conv : string -> string)
    (queryValue : value) :
  Get (Bar id name val conv) recorder "id" queryValue
  = Ok (QueryOne recorder (OneModel (Bar id name val conv))
          ("SELECT * FROM foo.bars" ++ NL ++ "WHERE id = ?")%string
          [queryValue])
  /\ sql_words ("SELECT * FROM foo.bars" ++ NL ++ "WHERE id = ?")
     = sql_words "SELECT * FROM foo.bars WHERE id = ?".
Proof.
  split; [reflexivity | vm_compute; reflexivity].
Qed.

Lemma introspected_zero_slice (pm : list PGModel) :
  introspected pm = Ok (dyn (SliceOf InterfacePGModel) (Elems [])).
Proof. reflexivity. Qed.

Lemma GetMany_introspects {R : Type} (pm : list PGModel) (t : Tx R)
    (queryKey : string) (queryValue : value) :
  GetMany pm t queryKey queryValue
  = (x <- introspected pm ;;
     m <- assert_PGModel x ;;
     Ok (Query t (ManyModels pm) (createGetQuery m queryKey queryValue)
           [queryValue])).
Proof. reflexivity. Qed.

Lemma assert_PGModel_panic (x : value) (p : panic) :
  assert_PGModel x = Panic p -> exists d : string, p = InterfaceConversion d.
Proof.
  destruct x as [|t d]; simpl.
  - intros [= <-]. now eexists.
  - destruct (method_table t d); [discriminate|].
    intros [= <-]. now eexists.
Qed.

(** The value [GetMany] introspects is the zero value of the slice type,
    never a [PGModel]: every call panics at the type assertion. *)
Lemma GetMany_panics {R : Type} (pm : list PGModel) (t : Tx R)
    (queryKey : string) (queryValue : value) :
  GetMany pm t queryKey queryValue
  = Panic (InterfaceConversion "[]pgmodel.PGModel").
Proof. reflexivity. Qed.

(** C4.  [GetMany] is to take a collection whose elements satisfy
    [PGModel] and query for them.  The README record, boxed, does satisfy
    [PGModel]; yet on the collection of that one record [GetMany] asserts the
    zero value of the slice type instead of an element, panics with the
    interface-conversion error and returns nothing: no result and no error
    value. *)
Theorem GetMany_panics_on_conforming_element :
  assert_PGModel bar_value = Ok bar
  /\ introspected [bar] = Ok (dyn (SliceOf InterfacePGModel) (Elems []))
  /\ assert_PGModel (dyn (SliceOf InterfacePGModel) (Elems []))
     = Panic (InterfaceConversion "[]pgmodel.PGModel")
  /\ GetMany [bar] recorder "id" (int_value 7)
     = Panic (InterfaceConversion "[]pgmodel.PGModel")
  /\ ~ returns (GetMany [bar] recorder "id" (int_value 7)).
Proof.
  split; [reflexivity|]. split; [reflexivity|]. split; [reflexivity|].
  split; [apply GetMany_panics|].
  intros [r Hr]. rewrite GetMany_panics in Hr. discriminate.
Qed.

(** C5, at a slice of the README record: [GetMany] builds no select text and
    passes no parameter, it panics at its type assertion; [Get], on the same
    record, key and value, passes the select text and the one parameter. *)
Theorem GetMany_Bar_panics :
  GetMany [bar] recorder "id" (int_value 7)
  = Panic (InterfaceConversion "[]pgmodel.PGModel")
  /\ Get bar recorder "id" (int_value 7)
     = Ok (QueryOne recorder (OneModel bar)
             ("SELECT * FROM foo.bars" ++ NL ++ "WHERE id = ?")%string
             [int_value 7]).
Proof.
  split; reflexivity.
Qed.

(** ** Delete *)

Lemma createDeleteQuery_text (pm : PGModel) :
  createDeleteQuery pm
  = delete_text (SchemaName pm) (TableName pm) (TableName pm) (PrimaryKey pm).
Proof. reflexivity. Qed.

(** The earlier revision qualifies the predicate with the schema name. *)
Lemma Earlier_createDeleteQuery_text (pm : PGModel) :
  Earlier.createDeleteQuery pm
  = delete_text (SchemaName pm) (TableName pm) (SchemaName pm) (PrimaryKey pm).
Proof. reflexivity. Qed.

Lemma Earlier_createDeleteQuery_Bar :
  Earlier.createDeleteQuery bar
  = ("DELETE FROM foo.bars" ++ NL ++ "WHERE foo.id = ?")%string
  /\ Earlier.createDeleteQuery bar <> createDeleteQuery bar.
Proof.
  split; [reflexivity | discriminate].
Qed.

(** C6.  [Delete] passes the text [DELETE FROM <schema>.<table> WHERE
    <table>.<pk> = ?], the predicate qualified with the table name, with the
    line break of the source literal where the specification writes a blank,
    and one parameter, the primary-key value as the record returns it.  For
    schema [foo], table [bars] and key [id] the text reads
    [DELETE FROM foo.bars WHERE bars.id = ?]. *)
Theorem Delete_table_qualified {R : Type} (pm : PGModel) (t : Tx R) :
  Delete pm t
  = Ok (Query t (OneModel pm)
          ("DELETE FROM " ++ SchemaName pm ++ "." ++ TableName pm ++ NL
           ++ "WHERE " ++ TableName pm ++ "." ++ PrimaryKey pm ++ " = ?")%string
          [PrimaryKeyValue pm])
  /\ sql_words (createDeleteQuery pm)
     = sql_words ("DELETE FROM " ++ SchemaName pm ++ "." ++ TableName pm
                  ++ " WHERE " ++ TableName pm ++ "." ++ PrimaryKey pm
                  ++ " = ?")%string
  /\ (SchemaName pm = "foo"%string -> TableName pm = "bars"%string ->
      PrimaryKey pm = "id"%string ->
      createDeleteQuery pm
      = ("DELETE FROM foo.bars" ++ NL ++ "WHERE bars.id = ?")%string
      /\ sql_words (createDeleteQuery pm)
         = sql_words "DELETE FROM foo.bars WHERE bars.id = ?").
Proof.
  split; [reflexivity|].
  split; [apply (delete_text_words (SchemaName pm) (TableName pm)
                   (TableName pm) (PrimaryKey pm))|].
  intros Hsn Htn Hpk. rewrite createDeleteQuery_text, Hsn, Htn, Hpk.
  split; [reflexivity | vm_compute; reflexivity].
Qed.

Lemma Delete_table_qualified_witness :
  Delete bar recorder
  = Ok (Query recorder (OneModel bar)
          ("DELETE FROM foo.bars" ++ NL ++ "WHERE bars.id = ?")%string
          [int_value 7])
  /\ sql_words (createDeleteQuery bar)
     = ["DELETE"; "FROM"; "foo.bars"; "WHERE"; "bars.id"; "="; "?"]%string.
Proof.
  destruct (Delete_table_qualified bar recorder) as (Hdel & _ & Hbar).
  split; [exact Hdel|].
  destruct (Hbar eq_refl eq_refl eq_refl) as [_ Hwords].
  rewrite Hwords. vm_compute. reflexivity.
Defined.

(** * Further properties of the package *)

(** ** The upsert template on any record *)

Lemma qmarks_all_firstn (n : nat) (l : list string) :
  qmarks_all l = 0 -> qmarks_all (firstn n l) = 0.
Proof.
  revert n. unfold qmarks_all.
  induction l as [|a l IH]; intros [|n] H; simpl in *; try reflexivity.
  rewrite IH; lia.
Qed.

(** X2.  [createSaveQuery] returns exactly when [NonPKColumns] has at least
    [ColumnCount() - 1] names.  The column list then names the key and every
    non-key column, while the VALUES list and the SET clause follow
    [ColumnCount()] alone: one placeholder for the key and one placeholder
    and one assignment for each of the first [ColumnCount() - 1] columns.
    With fewer names it panics on the first index past the end of
    [NonPKColumns]. *)
Theorem createSaveQuery_outcome (pm : PGModel) :
  let n := Z.to_nat (int_sub (ColumnCount pm) 1) in
  ((int_sub (ColumnCount pm) 1 <= Z.of_nat (length (NonPKColumns pm)))%Z ->
   createSaveQuery pm
   = Ok (upsert_text (SchemaName pm) (TableName pm)
           (Join (PrimaryKey pm :: NonPKColumns pm) ", ")
           (Join (repeat "?"%string (S n)) ", ")
           (PrimaryKey pm)
           (Join (map assignment (firstn n (NonPKColumns pm))) ", "))
   /\ length (firstn n (NonPKColumns pm)) = n)
  /\ ((Z.of_nat (length (NonPKColumns pm)) < int_sub (ColumnCount pm) 1)%Z ->
      createSaveQuery pm
      = Panic (IndexOutOfRange (Z.of_nat (length (NonPKColumns pm)))
                 (length (NonPKColumns pm))))
  /\ (returns (createSaveQuery pm)
      <-> (int_sub (ColumnCount pm) 1
           <= Z.of_nat (length (NonPKColumns pm)))%Z).
Proof.
  intros n. split; [|split].
  - intros Hle. split; [apply createSaveQuery_ok; assumption|].
    rewrite length_firstn. unfold n. lia.
  - apply createSaveQuery_short_columns.
  - split.
    + intros [q Hq].
      destruct (Z.le_gt_cases (int_sub (ColumnCount pm) 1)
                  (Z.of_nat (length (NonPKColumns pm)))) as [Hle|Hgt];
        [assumption|].
      rewrite createSaveQuery_short_columns in Hq by lia. discriminate.
    + intros Hle. eexists. apply createSaveQuery_ok. assumption.
Qed.

Lemma createSaveQuery_outcome_witness :
  createSaveQuery Overfull
  = Ok ("INSERT INTO foo.over (id, a) " ++ NL
        ++ "VALUES (?, ?) " ++ NL
        ++ "ON CONFLICT (id) " ++ NL
        ++ "DO UPDATE" ++ NL
        ++ "SET a = ? " ++ NL
        ++ "WHERE over.id = ?")%string
  /\ createSaveQuery (Uncounted 5) = Panic (IndexOutOfRange 2 2).
Proof.
  split.
  - refine (proj1 (proj1 (createSaveQuery_outcome Overfull) _)).
    vm_compute. discriminate.
  - refine (proj1 (proj2 (createSaveQuery_outcome (Uncounted 5))) _).
    vm_compute. reflexivity.
Defined.

Lemma int_sub_in_range (cc : Z) :
  int_range cc -> (- 2 ^ 63 < cc)%Z -> int_sub cc 1 = (cc - 1)%Z.
Proof.
  unfold int_range, int_sub, int_wrap. intros Hr Hmin.
  rewrite Z.mod_small; lia.
Qed.

(** X3.  A column count below one is taken for one: for every count from
    [math.MinInt64 + 1] to [1], whatever [NonPKColumns] holds,
    [createSaveQuery] returns the text with the single placeholder of the key
    and an empty SET clause.  At [math.MinInt64] the bound [cc-1] wraps
    around to [math.MaxInt64] and the loop runs into the end of
    [NonPKColumns]. *)
Theorem createSaveQuery_count_below_one (pm : PGModel) :
  ((- 2 ^ 63 < ColumnCount pm <= 1)%Z ->
   createSaveQuery pm
   = Ok (upsert_text (SchemaName pm) (TableName pm)
           (Join (PrimaryKey pm :: NonPKColumns pm) ", ") "?"
           (PrimaryKey pm) ""))
  /\ (ColumnCount pm = (- 2 ^ 63)%Z ->
      (Z.of_nat (length (NonPKColumns pm)) < 2 ^ 63 - 1)%Z ->
      createSaveQuery pm
      = Panic (IndexOutOfRange (Z.of_nat (length (NonPKColumns pm)))
                 (length (NonPKColumns pm)))).
Proof.
  split.
  - intros [Hmin Hone].
    assert (Hsub : int_sub (ColumnCount pm) 1 = (ColumnCount pm - 1)%Z)
      by (apply int_sub_in_range; [unfold int_range|]; lia).
    rewrite createSaveQuery_ok by (rewrite Hsub; lia).
    rewrite Hsub. replace (Z.to_nat (ColumnCount pm - 1)) with 0 by lia.
    reflexivity.
  - intros Hcc Hlen. apply createSaveQuery_short_columns.
    rewrite Hcc. change (int_sub (- 2 ^ 63) 1) with (2 ^ 63 - 1)%Z. lia.
Qed.

Lemma createSaveQuery_count_below_one_witness :
  createSaveQuery (Uncounted (-4))
  = Ok ("INSERT INTO foo.bars (id, name, value) " ++ NL
        ++ "VALUES (?) " ++ NL
        ++ "ON CONFLICT (id) " ++ NL
        ++ "DO UPDATE" ++ NL
        ++ "SET  " ++ NL
        ++ "WHERE bars.id = ?")%string
  /\ createSaveQuery (Uncounted (- 2 ^ 63)) = Panic (IndexOutOfRange 2 2).
Proof.
  split.
  - refine (proj1 (createSaveQuery_count_below_one (Uncounted (-4))) _).
    simpl. lia.
  - refine (proj2 (createSaveQuery_count_below_one (Uncounted (- 2 ^ 63))) _ _).
    + reflexivity.
    + simpl. lia.
Defined.

(** ** What the marshaler hands on *)

Lemma marshaled_bindable (pm : PGModel) (v : value) (c : string) :
  v <> nil_interface -> bindable (marshaled pm v c).
Proof.
  intros Hv. unfold marshaled, bindable.
  destruct (is_slice v) eqn:E.
  - split; [discriminate | reflexivity].
  - split; assumption.
Qed.

Lemma marshaled_all_bindable (pm : PGModel) (vs : list value) :
  forall cs : list string,
    Forall (fun v => v <> nil_interface) vs ->
    Forall bindable (marshaled_all pm vs cs).
Proof.
  induction vs as [|v vs IH]; intros [|c cs] Hnn; simpl; try constructor.
  - inversion Hnn; subst. now apply marshaled_bindable.
  - inversion Hnn; subst. now apply IH.
Qed.

(** X4.  Marshaling is idempotent, and its result is never nil and never a
    slice: whatever [convertVariable] returns, it returns again unchanged
    under any column name. *)
Theorem convertVariable_idempotent
    (pm : PGModel) (v w : value) (c : string) :
  convertVariable pm v c = Ok w ->
  bindable w /\ forall c' : string, convertVariable pm w c' = Ok w.
Proof.
  intros H. destruct v as [|t d]; [discriminate|].
  rewrite convertVariable_marshaled in H by discriminate.
  injection H as <-.
  assert (Hb : bindable (marshaled pm (dyn t d) c))
    by (apply marshaled_bindable; discriminate).
  split; [exact Hb|].
  intros c'. destruct Hb as [Hnn Hs].
  rewrite convertVariable_marshaled by assumption.
  unfold marshaled at 1. now rewrite Hs.
Qed.

Lemma convertVariable_idempotent_witness :
  convertVariable series (string_value "{points}") "label"
  = Ok (string_value "{points}").
Proof.
  exact (proj2 (convertVariable_idempotent series
                  (float64s_value [1; 2; 3]%Z) (string_value "{points}")
                  "points" eq_refl) "label"%string).
Defined.

(** X5.  Whenever [Save] returns, every parameter it passed is bindable:
    none is nil and none is a slice. *)
Theorem Save_parameters_bindable (pm : PGModel) (c : call) :
  Save pm recorder = Ok c -> Forall bindable (call_params c).
Proof.
  intros Hc.
  assert (Hret : returns (Save pm recorder)) by (now exists c).
  apply Save_returns_iff in Hret. destruct Hret as (Hpk & Hnn & Hlen & Hcc).
  rewrite (Save_ok pm recorder _ Hpk Hnn Hlen (createSaveQuery_ok pm Hcc)) in Hc.
  injection Hc as <-. simpl call_params.
  assert (Hk : bindable (marshaled pm (PrimaryKeyValue pm) (PrimaryKey pm)))
    by (apply marshaled_bindable; assumption).
  assert (Hv : Forall bindable
                 (marshaled_all pm (NonPKValues pm) (NonPKColumns pm)))
    by (apply marshaled_all_bindable; assumption).
  constructor; [exact Hk|].
  apply Forall_app. split; [exact Hv|].
  apply Forall_app. split; [exact Hv|].
  constructor; [exact Hk | constructor].
Qed.

Lemma Save_parameters_bindable_witness :
  exists c : call,
    Save series recorder = Ok c /\ Forall bindable (call_params c).
Proof.
  eexists. split; [vm_compute; reflexivity|].
  apply (Save_parameters_bindable series). vm_compute. reflexivity.
Defined.

(** ** Values without a column name *)

Lemma convertVariables_from_short (pm : PGModel) (us : list value) :
  forall (pre cs : list string) (cv : list value),
    NonPKColumns pm = pre ++ cs ->
    length cs < length us ->
    Forall (fun v => v <> nil_interface) (firstn (length cs) us) ->
    convertVariables_from pm (length pre) us cv
    = Panic (IndexOutOfRange (Z.of_nat (length (NonPKColumns pm)))
               (length (NonPKColumns pm))).
Proof.
  induction us as [|u us IH]; intros pre cs cv Hcols Hlen Hnn;
    [simpl in Hlen; lia|].
  destruct cs as [|c cs].
  - simpl. rewrite app_nil_r in Hcols. rewrite Hcols, elem_at_end.
    reflexivity.
  - simpl in Hnn. inversion Hnn as [|? ? Hu Hus]; subst.
    simpl. rewrite Hcols at 1. rewrite elem_at_middle. cbn [bind].
    rewrite convertVariable_marshaled by assumption. cbn [bind].
    replace (S (length pre)) with (length (pre ++ [c]))
      by (rewrite length_app; simpl; lia).
    apply (IH (pre ++ [c]) cs).
    + now rewrite Hcols, <- app_assoc.
    + simpl in Hlen. lia.
    + assumption.
Qed.

(** A nil among the values that have a column name is reached first. *)
Lemma convertVariables_from_nil_covered (pm : PGModel) (us : list value) :
  forall (pre cs : list string) (cv : list value),
    NonPKColumns pm = pre ++ cs ->
    In nil_interface (firstn (length cs) us) ->
    convertVariables_from pm (length pre) us cv = Panic NilPointerDereference.
Proof.
  induction us as [|u us IH]; intros pre cs cv Hcols Hin.
  - rewrite firstn_nil in Hin. contradiction.
  - destruct cs as [|c cs]; [contradiction|].
    simpl in Hin. simpl. rewrite Hcols at 1. rewrite elem_at_middle.
    cbn [bind]. destruct u as [|t d]; [reflexivity|].
    rewrite convertVariable_marshaled by discriminate. cbn [bind].
    replace (S (length pre)) with (length (pre ++ [c]))
      by (rewrite length_app; simpl; lia).
    apply (IH (pre ++ [c]) cs).
    + now rewrite Hcols, <- app_assoc.
    + destruct Hin as [Hin|Hin]; [discriminate | assumption].
Qed.

(** X6.  A record with more non-key values than column names always makes
    [Save] panic, also when no value is a slice and no name is ever used.
    When the values that have a column name are all non-nil,
    [convertVariables] panics on the first index past the end of
    [NonPKColumns], the names being indexed before the values are inspected,
    and so does [Save] with a non-nil key.  When one of those values is nil,
    both panic with the nil dereference, which comes first. *)
Theorem Save_more_values_than_columns {R : Type} (pm : PGModel) (t : Tx R) :
  length (NonPKColumns pm) < length (NonPKValues pm) ->
  panics (Save pm t)
  /\ (Forall (fun v => v <> nil_interface)
        (firstn (length (NonPKColumns pm)) (NonPKValues pm)) ->
      convertVariables pm
      = Panic (IndexOutOfRange (Z.of_nat (length (NonPKColumns pm)))
                 (length (NonPKColumns pm)))
      /\ (PrimaryKeyValue pm <> nil_interface ->
          Save pm t
          = Panic (IndexOutOfRange (Z.of_nat (length (NonPKColumns pm)))
                     (length (NonPKColumns pm))))
      /\ (PrimaryKeyValue pm = nil_interface ->
          Save pm t = Panic NilPointerDereference))
  /\ (In nil_interface
        (firstn (length (NonPKColumns pm)) (NonPKValues pm)) ->
      convertVariables pm = Panic NilPointerDereference
      /\ Save pm t = Panic NilPointerDereference).
Proof.
  intros Hlen.
  split; [|split].
  - destruct (Save pm t) as [r|p] eqn:E; [|now exists p].
    assert (Hret : returns (Save pm t)) by (now exists r).
    apply Save_returns_iff in Hret. lia.
  - intros Hnn.
    assert (Hcv : convertVariables pm
                  = Panic (IndexOutOfRange
                             (Z.of_nat (length (NonPKColumns pm)))
                             (length (NonPKColumns pm)))).
    { unfold convertVariables.
      now apply (convertVariables_from_short pm _ [] (NonPKColumns pm) []). }
    split; [exact Hcv|]. split.
    + intros Hpk. unfold Save.
      rewrite convertVariable_marshaled by assumption. cbn [bind].
      rewrite Hcv. reflexivity.
    + intros Hpk. unfold Save. rewrite Hpk. reflexivity.
  - intros Hin.
    assert (Hcv : convertVariables pm = Panic NilPointerDereference).
    { unfold convertVariables.
      now apply (convertVariables_from_nil_covered pm _ []
                   (NonPKColumns pm) []). }
    split; [exact Hcv|].
    unfold Save. destruct (PrimaryKeyValue pm) as [|t0 d0] eqn:Epk;
      [reflexivity|].
    rewrite convertVariable_marshaled by discriminate. cbn [bind].
    rewrite Hcv. reflexivity.
Qed.

Lemma Save_more_values_than_columns_witness :
  Save Overfull recorder = Panic (IndexOutOfRange 1 1)
  /\ Save OverfullNil recorder = Panic NilPointerDereference.
Proof.
  split.
  - refine (proj1 (proj2 (proj1 (proj2
              (Save_more_values_than_columns Overfull recorder _)) _)) _).
    + simpl. lia.
    + simpl. repeat constructor. discriminate.
    + discriminate.
  - refine (proj2 (proj2 (proj2
              (Save_more_values_than_columns OverfullNil recorder _)) _)).
    + simpl. lia.
    + simpl. left. reflexivity.
Defined.

(** ** Save as a whole *)

(** X1.  [Save] reaches the transaction on exactly the records whose
    primary-key value and non-key values are all non-nil, that have a column
    name for every non-key value, and at least [ColumnCount() - 1] column
    names; on every other record it panics. *)
Theorem Save_returns_exactly_when {R : Type} (pm : PGModel) (t : Tx R) :
  (returns (Save pm t)
   <-> (PrimaryKeyValue pm <> nil_interface
        /\ Forall (fun v => v <> nil_interface) (NonPKValues pm)
        /\ length (NonPKValues pm) <= length (NonPKColumns pm)
        /\ (int_sub (ColumnCount pm) 1
            <= Z.of_nat (length (NonPKColumns pm)))%Z))
  /\ (panics (Save pm t) <-> ~ returns (Save pm t)).
Proof.
  split; [apply Save_returns_iff|].
  unfold panics, returns. destruct (Save pm t) as [r|p].
  - split.
    + intros [p Hp]. discriminate.
    + intros Hn. exfalso. apply Hn. now exists r.
  - split.
    + intros _ [r Hr]. discriminate.
    + intros _. now exists p.
Qed.

(** X7.  [Save] passes [2 * len(NonPKValues()) + 2] parameters with a text
    of [2 * n + 2] placeholders (for names without [?]), [n] being the turns
    of the template loop, [ColumnCount() - 1] for a count of one or more.  It
    checks neither against the other: the parameters are as many as the
    placeholders exactly when [NonPKValues] has [n] entries. *)
Theorem Save_parameters_fit_placeholders (pm : PGModel) :
  returns (Save pm recorder) ->
  names_plain pm ->
  let n := Z.to_nat (int_sub (ColumnCount pm) 1) in
  exists c : call,
    Save pm recorder = Ok c
    /\ length (call_params c) = 2 * length (NonPKValues pm) + 2
    /\ qmarks (call_query c) = 2 * n + 2
    /\ (length (call_params c) = qmarks (call_query c)
        <-> length (NonPKValues pm) = n).
Proof.
  intros Hret (Hsn & Htn & Hpk' & Hcols) n.
  apply Save_returns_iff in Hret. destruct Hret as (Hpk & Hnn & Hlen & Hcc).
  set (q := upsert_text (SchemaName pm) (TableName pm)
              (Join (PrimaryKey pm :: NonPKColumns pm) ", ")
              (Join (repeat "?"%string (S n)) ", ")
              (PrimaryKey pm)
              (Join (map assignment (firstn n (NonPKColumns pm))) ", ")).
  set (tv := [marshaled pm (PrimaryKeyValue pm) (PrimaryKey pm)]
             ++ marshaled_all pm (NonPKValues pm) (NonPKColumns pm)
             ++ marshaled_all pm (NonPKValues pm) (NonPKColumns pm)
             ++ [marshaled pm (PrimaryKeyValue pm) (PrimaryKey pm)]).
  exists (Query recorder (OneModel pm) q tv).
  split.
  { apply (Save_ok pm recorder q Hpk Hnn Hlen).
    apply createSaveQuery_ok. assumption. }
  change (call_params (Query recorder (OneModel pm) q tv)) with tv.
  change (call_query (Query recorder (OneModel pm) q tv)) with q.
  assert (Hp : length tv = 2 * length (NonPKValues pm) + 2).
  { unfold tv. rewrite !length_app, marshaled_all_length by assumption.
    simpl. lia. }
  assert (Hq : qmarks q = 2 * n + 2).
  { unfold q.
    rewrite qmarks_upsert_text, !qmarks_Join, qmarks_all_cons,
      qmarks_all_repeat, qmarks_all_assignments,
      (qmarks_all_firstn n _ Hcols), Hsn, Htn, Hpk', Hcols.
    rewrite length_firstn. simpl qmarks. unfold n. lia. }
  rewrite Hp, Hq. repeat split; lia.
Qed.

Lemma Save_parameters_fit_placeholders_witness :
  exists c : call,
    Save (Uncounted 1) recorder = Ok c
    /\ length (call_params c) = 6 /\ qmarks (call_query c) = 2.
Proof.
  assert (Hret : returns (Save (Uncounted 1) recorder))
    by (eexists; vm_compute; reflexivity).
  assert (Hplain : names_plain (Uncounted 1))
    by (repeat split; reflexivity).
  destruct (Save_parameters_fit_placeholders (Uncounted 1) Hret Hplain)
    as (c & Hc & Hp & Hq & _).
  exists c. repeat split; assumption.
Defined.

Lemma slice_is_not_string (v : value) (s : string) :
  is_slice v = true -> string_value s <> v.
Proof.
  intros Hs <-. discriminate.
Qed.

(** X8.  [Save] and [Delete] bind the key differently: [Delete] passes
    [PrimaryKeyValue()] as the record returns it and never panics, nil or
    slice included, while [Save] passes the marshaled key.  On a record that
    [Save] accepts, the first parameter of [Save] is the parameter of
    [Delete] exactly when the key is not a slice. *)
Theorem Save_Delete_key_parameter (pm : PGModel) :
  Delete pm recorder
  = Ok (Query recorder (OneModel pm) (createDeleteQuery pm)
          [PrimaryKeyValue pm])
  /\ (returns (Save pm recorder) ->
      exists c : call,
        Save pm recorder = Ok c
        /\ (hd_error (call_params c) = Some (PrimaryKeyValue pm)
            <-> is_slice (PrimaryKeyValue pm) = false)).
Proof.
  split; [reflexivity|].
  intros Hret.
  apply Save_returns_iff in Hret. destruct Hret as (Hpk & Hnn & Hlen & Hcc).
  eexists. split;
    [apply (Save_ok pm recorder _ Hpk Hnn Hlen (createSaveQuery_ok pm Hcc))|].
  simpl. unfold marshaled.
  destruct (is_slice (PrimaryKeyValue pm)) eqn:E.
  - split; [|discriminate].
    intros H. injection H as H.
    now apply slice_is_not_string in H.
  - split; reflexivity.
Qed.

Lemma Save_Delete_key_parameter_witness :
  exists c d : call,
    Save (Series (float64s_value [4; 2]%Z) [1]%Z) recorder = Ok c
    /\ Delete (Series (float64s_value [4; 2]%Z) [1]%Z) recorder = Ok d
    /\ hd_error (call_params c) = Some (string_value "{id}")
    /\ hd_error (call_params d) = Some (float64s_value [4; 2]%Z).
Proof.
  destruct (Save_Delete_key_parameter
              (Series (float64s_value [4; 2]%Z) [1]%Z)) as [Hd Hs].
  destruct Hs as (c & Hc & _); [eexists; vm_compute; reflexivity|].
  exists c. eexists.
  split; [exact Hc|]. split; [exact Hd|].
  split; [|reflexivity].
  vm_compute in Hc. injection Hc as <-. reflexivity.
Defined.

(** ** Get, GetMany and Delete *)

(** X9.  [GetMany] never reaches the transaction: on every slice of models,
    empty or not, every key and every value it panics at its type assertion,
    the asserted value being the zero value of the slice type. *)
Theorem GetMany_never_returns {R : Type} (pm : list PGModel) (t : Tx R)
    (queryKey : string) (queryValue : value) :
  introspected pm = Ok (dyn (SliceOf InterfacePGModel) (Elems []))
  /\ GetMany pm t queryKey queryValue
     = Panic (InterfaceConversion "[]pgmodel.PGModel")
  /\ ~ returns (GetMany pm t queryKey queryValue).
Proof.
  split; [reflexivity|]. split; [reflexivity|].
  intros [r Hr]. rewrite GetMany_panics in Hr. discriminate.
Qed.

(** X10.  The select text carries one placeholder of its own, for the one
    parameter [Get] passes; every other [?] in it comes from the schema name,
    the table name or the query key, which are written into the text as they
    are. *)
Theorem Get_one_placeholder {R : Type} (pm : PGModel) (t : Tx R)
    (queryKey : string) (queryValue : value) :
  exists q : string,
    Get pm t queryKey queryValue
    = Ok (QueryOne t (OneModel pm) q [queryValue])
    /\ qmarks q
       = 1 + qmarks (SchemaName pm) + qmarks (TableName pm) + qmarks queryKey
    /\ (qmarks (SchemaName pm) = 0 -> qmarks (TableName pm) = 0 ->
        qmarks queryKey = 0 -> qmarks q = length [queryValue]).
Proof.
  exists (select_text (SchemaName pm) (TableName pm) queryKey).
  split; [reflexivity|].
  assert (Hq : qmarks (select_text (SchemaName pm) (TableName pm) queryKey)
               = 1 + qmarks (SchemaName pm) + qmarks (TableName pm)
                 + qmarks queryKey).
  { unfold select_text. rewrite !qmarks_app. simpl. lia. }
  split; [exact Hq|].
  intros Hsn Htn Hk. rewrite Hq, Hsn, Htn, Hk. reflexivity.
Qed.

Lemma Get_one_placeholder_witness :
  exists q : string,
    Get bar recorder "id" (int_value 7)
    = Ok (QueryOne recorder (OneModel bar) q [int_value 7])
    /\ qmarks q = 1.
Proof.
  destruct (Get_one_placeholder bar recorder "id" (int_value 7))
    as (q & Hget & _ & Hplain).
  exists q. split; [exact Hget|].
  apply Hplain; reflexivity.
Defined.

(** X11.  The delete text carries one placeholder of its own, for the one
    parameter [Delete] passes; every other [?] in it comes from the schema
    name, the table name (written twice) or the key name. *)
Theorem Delete_one_placeholder {R : Type} (pm : PGModel) (t : Tx R) :
  exists q : string,
    Delete pm t = Ok (Query t (OneModel pm) q [PrimaryKeyValue pm])
    /\ qmarks q
       = 1 + qmarks (SchemaName pm) + 2 * qmarks (TableName pm)
         + qmarks (PrimaryKey pm)
    /\ (qmarks (SchemaName pm) = 0 -> qmarks (TableName pm) = 0 ->
        qmarks (PrimaryKey pm) = 0 ->
        qmarks q = length [PrimaryKeyValue pm]).
Proof.
  exists (delete_text (SchemaName pm) (TableName pm) (TableName pm)
            (PrimaryKey pm)).
  split; [reflexivity|].
  assert (Hq : qmarks (delete_text (SchemaName pm) (TableName pm)
                         (TableName pm) (PrimaryKey pm))
               = 1 + qmarks (SchemaName pm) + 2 * qmarks (TableName pm)
                 + qmarks (PrimaryKey pm)).
  { unfold delete_text. rewrite !qmarks_app. simpl. lia. }
  split; [exact Hq|].
  intros Hsn Htn Hk. rewrite Hq, Hsn, Htn, Hk. reflexivity.
Qed.

Lemma Delete_one_placeholder_witness :
  exists q : string,
    Delete bar recorder = Ok (Query recorder (OneModel bar) q [int_value 7])
    /\ qmarks q = 1.
Proof.
  destruct (Delete_one_placeholder bar recorder) as (q & Hdel & _ & Hplain).
  exists q. split; [exact Hdel|].
  apply Hplain; reflexivity.
Defined.

(** ** The earlier revision against the present one *)

Lemma append_inv_head (a x y : string) : (a ++ x = a ++ y -> x = y)%string.
Proof.
  induction a as [|c a IH]; simpl; intros H; [exact H|].
  injection H as H. now apply IH.
Qed.

Lemma string_length_app (a b : string) :
  String.length (a ++ b) = String.length a + String.length b.
Proof.
  induction a as [|c a IH]; simpl; [reflexivity | now rewrite IH].
Qed.

Lemma append_inv_tail (s : string) :
  forall x y : string, (x ++ s = y ++ s -> x = y)%string.
Proof.
  induction x as [|c x IH]; intros [|d y] H; simpl in H.
  - reflexivity.
  - apply (f_equal String.length) in H. simpl in H.
    rewrite string_length_app in H. lia.
  - apply (f_equal String.length) in H. simpl in H.
    rewrite string_length_app in H. lia.
  - injection H as -> H. f_equal. now apply IH.
Qed.

Lemma Ok_inj {A : Type} (a b : A) : Ok a = Ok b -> a = b.
Proof. intros H. now injection H. Qed.

Lemma upsert_text_is_qualified (sn tn cols vals pk sets : string) :
  upsert_text sn tn cols vals pk sets
  = upsert_text_qualified sn tn cols vals pk sets tn.
Proof. reflexivity. Qed.

Lemma Earlier_createSaveQuery_ok (pm : PGModel) :
  (int_sub (ColumnCount pm) 1 <= Z.of_nat (length (NonPKColumns pm)))%Z ->
  let n := Z.to_nat (int_sub (ColumnCount pm) 1) in
  Earlier.createSaveQuery pm
  = Ok (upsert_text_qualified (SchemaName pm) (TableName pm)
          (Join (PrimaryKey pm :: NonPKColumns pm) ", ")
          (Join (repeat "?"%string (S n)) ", ")
          (PrimaryKey pm)
          (Join (map assignment (firstn n (NonPKColumns pm))) ", ")
          (SchemaName pm)).
Proof.
  intros Hle n. unfold Earlier.createSaveQuery.
  rewrite save_loop_ok by lia.
  rewrite Z.sub_0_r. fold n. reflexivity.
Qed.

Lemma Earlier_createSaveQuery_short_columns (pm : PGModel) :
  (Z.of_nat (length (NonPKColumns pm)) < int_sub (ColumnCount pm) 1)%Z ->
  Earlier.createSaveQuery pm
  = Panic (IndexOutOfRange (Z.of_nat (length (NonPKColumns pm)))
             (length (NonPKColumns pm))).
Proof.
  intros Hlt. unfold Earlier.createSaveQuery.
  rewrite save_loop_panic by lia. reflexivity.
Qed.

Lemma upsert_text_qualified_inj (sn tn cols vals pk sets q1 q2 : string) :
  upsert_text_qualified sn tn cols vals pk sets q1
  = upsert_text_qualified sn tn cols vals pk sets q2 ->
  q1 = q2.
Proof.
  unfold upsert_text_qualified. intros H.
  repeat apply append_inv_head in H.
  now apply append_inv_tail in H.
Qed.

Lemma delete_text_inj (sn tn pk q1 q2 : string) :
  delete_text sn tn q1 pk = delete_text sn tn q2 pk -> q1 = q2.
Proof.
  unfold delete_text. intros H.
  repeat apply append_inv_head in H.
  now apply append_inv_tail in H.
Qed.

(** X12.  The two revisions build the same delete text exactly for the
    records whose schema and table have the same name: the earlier one
    qualifies the predicate with the schema name, the present one with the
    table name, and nothing else differs.  Both [Delete]s pass the key as the
    record returns it, so they make the same call for the same records. *)
Theorem createDeleteQuery_revisions_agree_iff (pm : PGModel) :
  Earlier.createDeleteQuery pm
  = ("DELETE FROM " ++ SchemaName pm ++ "." ++ TableName pm ++ NL
     ++ "WHERE " ++ SchemaName pm ++ "." ++ PrimaryKey pm ++ " = ?")%string
  /\ (Earlier.createDeleteQuery pm = createDeleteQuery pm
      <-> SchemaName pm = TableName pm)
  /\ (Earlier.Delete pm recorder = Delete pm recorder
      <-> SchemaName pm = TableName pm).
Proof.
  split; [reflexivity|].
  assert (Hiff : Earlier.createDeleteQuery pm = createDeleteQuery pm
                 <-> SchemaName pm = TableName pm).
  { rewrite Earlier_createDeleteQuery_text, createDeleteQuery_text.
    split.
    - apply delete_text_inj.
    - intros ->. reflexivity. }
  split; [exact Hiff|].
  unfold Earlier.Delete, Delete. split.
  - intros H. apply Ok_inj in H.
    apply (f_equal call_query) in H. apply Hiff. exact H.
  - intros H. apply Hiff in H. now rewrite H.
Qed.

(** X13.  The two revisions of [createSaveQuery] panic on the same records
    with the same panic, and where they return their texts differ in the
    qualifier of the last predicate alone: they are the same text exactly
    when the schema and the table have the same name. *)
Theorem createSaveQuery_revisions_agree_iff (pm : PGModel) :
  ((Z.of_nat (length (NonPKColumns pm)) < int_sub (ColumnCount pm) 1)%Z ->
   Earlier.createSaveQuery pm = createSaveQuery pm
   /\ panics (createSaveQuery pm))
  /\ ((int_sub (ColumnCount pm) 1 <= Z.of_nat (length (NonPKColumns pm)))%Z ->
      exists cols vals sets : string,
        createSaveQuery pm
        = Ok (upsert_text_qualified (SchemaName pm) (TableName pm) cols vals
                (PrimaryKey pm) sets (TableName pm))
        /\ Earlier.createSaveQuery pm
           = Ok (upsert_text_qualified (SchemaName pm) (TableName pm) cols
                   vals (PrimaryKey pm) sets (SchemaName pm))
        /\ (Earlier.createSaveQuery pm = createSaveQuery pm
            <-> SchemaName pm = TableName pm)).
Proof.
  split.
  - intros Hlt.
    rewrite Earlier_createSaveQuery_short_columns,
      createSaveQuery_short_columns by assumption.
    split; [reflexivity | now eexists].
  - intros Hle. do 3 eexists.
    rewrite createSaveQuery_ok, Earlier_createSaveQuery_ok by assumption.
    rewrite upsert_text_is_qualified.
    split; [reflexivity|]. split; [reflexivity|].
    split.
    + intros H. apply Ok_inj in H.
      now apply upsert_text_qualified_inj in H.
    + intros ->. reflexivity.
Qed.

Lemma createSaveQuery_revisions_agree_iff_witness :
  Earlier.createSaveQuery bar <> createSaveQuery bar
  /\ Earlier.createSaveQuery (Uncounted 5) = createSaveQuery (Uncounted 5).
Proof.
  split.
  - destruct (proj2 (createSaveQuery_revisions_agree_iff bar))
      as (cols & vals & sets & _ & _ & Hiff);
      [vm_compute; discriminate|].
    intros H. apply Hiff in H. discriminate.
  - refine (proj1 (proj1 (createSaveQuery_revisions_agree_iff (Uncounted 5)) _)).
    vm_compute. reflexivity.
Defined.

(** X14.  [Save] of the earlier revision converts nothing and inspects no
    value: it returns exactly when its template does, whatever the values,
    and passes the key and the non-key values as the record returns them,
    nil and slices included, in the order key, values, values, key. *)
Theorem Earlier_Save_passes_values_unconverted {R : Type}
    (pm : PGModel) (t : Tx R) :
  (returns (Earlier.Save pm t)
   <-> (int_sub (ColumnCount pm) 1
        <= Z.of_nat (length (NonPKColumns pm)))%Z)
  /\ (forall r : R,
        Earlier.Save pm t = Ok r ->
        exists q : string,
          Earlier.createSaveQuery pm = Ok q
          /\ r = Query t (OneModel pm) q
                   ([PrimaryKeyValue pm] ++ NonPKValues pm ++ NonPKValues pm
                    ++ [PrimaryKeyValue pm])).
Proof.
  split.
  - split.
    + intros [r Hr]. unfold Earlier.Save in Hr.
      destruct (Z.le_gt_cases (int_sub (ColumnCount pm) 1)
                  (Z.of_nat (length (NonPKColumns pm)))) as [Hle|Hgt];
        [assumption|].
      rewrite Earlier_createSaveQuery_short_columns in Hr by lia.
      discriminate.
    + intros Hle. unfold Earlier.Save.
      rewrite Earlier_createSaveQuery_ok by assumption.
      now eexists.
  - intros r Hr. unfold Earlier.Save in Hr.
    destruct (Earlier.createSaveQuery pm) as [q|p]; [|discriminate].
    cbn [bind] in Hr. injection Hr as <-.
    exists q. split; [reflexivity|].
    now rewrite <- !app_assoc.
Qed.

Lemma Earlier_Save_passes_values_unconverted_witness :
  exists q : string,
    Earlier.Save Mixed recorder
    = Ok (Query recorder (OneModel Mixed) q
            [float64s_value [4; 2]%Z; nil_interface; float64s_value [1]%Z;
             nil_interface; float64s_value [1]%Z; float64s_value [4; 2]%Z])
    /\ Save Mixed recorder = Panic NilPointerDereference.
Proof.
  assert (Hcc : (int_sub (ColumnCount Mixed) 1
                 <= Z.of_nat (length (NonPKColumns Mixed)))%Z)
    by (vm_compute; discriminate).
  destruct (proj2 (proj1 (Earlier_Save_passes_values_unconverted
                            Mixed recorder)) Hcc) as [r Hr].
  destruct (proj2 (Earlier_Save_passes_values_unconverted Mixed recorder)
              r Hr) as (q & _ & ->).
  exists q. split; [exact Hr | reflexivity].
Defined.

(** X15.  On a record whose values are all scalars the present [Save] passes
    the very parameters the earlier [Save] passes, so that the two calls
    differ in the qualifier of the text alone, and are the same call exactly
    when the schema and the table have the same name. *)
Theorem Save_revisions_agree_on_scalars (pm : PGModel) :
  scalar (PrimaryKeyValue pm) ->
  Forall scalar (NonPKValues pm) ->
  length (NonPKValues pm) <= length (NonPKColumns pm) ->
  (int_sub (ColumnCount pm) 1 <= Z.of_nat (length (NonPKColumns pm)))%Z ->
  exists c e : call,
    Save pm recorder = Ok c
    /\ Earlier.Save pm recorder = Ok e
    /\ call_params c = call_params e
    /\ call_params c
       = [PrimaryKeyValue pm] ++ NonPKValues pm ++ NonPKValues pm
         ++ [PrimaryKeyValue pm]
    /\ (c = e <-> SchemaName pm = TableName pm).
Proof.
  intros [Hpk Spk] Hsc Hlen Hcc.
  assert (Hnn : Forall (fun v => v <> nil_interface) (NonPKValues pm)).
  { eapply Forall_impl; [|exact Hsc]. intros v [Hv _]. exact Hv. }
  assert (Hss : Forall (fun v => is_slice v = false) (NonPKValues pm)).
  { eapply Forall_impl; [|exact Hsc]. intros v [_ Hv]. exact Hv. }
  set (n := Z.to_nat (int_sub (ColumnCount pm) 1)).
  set (cols := Join (PrimaryKey pm :: NonPKColumns pm) ", ").
  set (vals := Join (repeat "?"%string (S n)) ", ").
  set (sets := Join (map assignment (firstn n (NonPKColumns pm))) ", ").
  set (tv := [PrimaryKeyValue pm] ++ NonPKValues pm ++ NonPKValues pm
             ++ [PrimaryKeyValue pm]).
  exists (Query recorder (OneModel pm)
            (upsert_text_qualified (SchemaName pm) (TableName pm) cols vals
               (PrimaryKey pm) sets (TableName pm)) tv).
  exists (Query recorder (OneModel pm)
            (upsert_text_qualified (SchemaName pm) (TableName pm) cols vals
               (PrimaryKey pm) sets (SchemaName pm)) tv).
  split.
  { rewrite (Save_ok pm recorder _ Hpk Hnn Hlen (createSaveQuery_ok pm Hcc)).
    rewrite marshaled_all_scalars by assumption.
    unfold marshaled. rewrite Spk. reflexivity. }
  split.
  { unfold Earlier.Save.
    rewrite Earlier_createSaveQuery_ok by assumption. cbn [bind].
    unfold tv. now rewrite <- !app_assoc. }
  split; [reflexivity|]. split; [reflexivity|].
  split.
  - intros H. apply (f_equal call_query) in H. simpl in H.
    apply upsert_text_qualified_inj in H. now symmetry.
  - intros <-. reflexivity.
Qed.

Lemma Save_revisions_agree_on_scalars_witness :
  exists c e : call,
    Save bar recorder = Ok c
    /\ Earlier.Save bar recorder = Ok e
    /\ call_params c = call_params e
    /\ c <> e.
Proof.
  assert (Hpk : scalar (PrimaryKeyValue bar))
    by (split; [discriminate | reflexivity]).
  assert (Hsc : Forall scalar (NonPKValues bar))
    by (repeat constructor; discriminate).
  assert (Hlen : length (NonPKValues bar) <= length (NonPKColumns bar))
    by (simpl; lia).
  assert (Hcc : (int_sub (ColumnCount bar) 1
                 <= Z.of_nat (length (NonPKColumns bar)))%Z)
    by (vm_compute; discriminate).
  destruct (Save_revisions_agree_on_scalars bar Hpk Hsc Hlen Hcc)
    as (c & e & Hc & He & Hp & _ & Hiff).
  exists c, e. repeat split; try assumption.
  intros H. apply Hiff in H. discriminate.
Defined.
